(** * Slicer scripted modules: DMRIInstall and DataProbe's SliceViewAnnotations

    A shallow embedding of two scripted (Python) modules of 3D Slicer:

    - [Modules/Scripted/DMRIInstall/DMRIInstall.py]: the widget that installs
      the SlicerDMRI extension through the extensions manager;
    - [Modules/Scripted/DataProbe/DataProbeLib/SliceViewAnnotations.py]: the
      manager of the corner annotations of the slice views.

    Python values are modelled as follows.  A [str] is a [string], read as a
    sequence of code points below 256; an [int] is a [Z]; a [dict] is an
    association list in insertion order whose keys are pairwise distinct
    ([Py.wf_dict]); an exception is a value of [Py.exn] returned in place of a
    result.  Objects that the code shares and mutates (the dictionaries of
    DICOM values kept in the cache) live in a heap and are passed by
    location. *)

From Stdlib Require Import ZArith List String Ascii Bool Lia.
From Stdlib Require Import DecimalString Mergesort Orders Sorted Permutation.
Import ListNotations.

Open Scope list_scope.
Open Scope string_scope.
Open Scope Z_scope.

(** ** Python primitives *)

Module Py.

(** The exceptions the modelled code can raise. *)
Inductive exn : Type :=
| KeyError (key : string)
| IndexError
| AttributeError
| ValueError
| ZeroDivisionError.

Inductive result (A : Type) : Type :=
| Ok (a : A)
| Raise (e : exn).

Arguments Ok {A} a.
Arguments Raise {A} e.

(** *** Strings *)

Definition nl : string := String "010"%char EmptyString.
Definition dquote : string := String "034"%char EmptyString.

Definition len (s : string) : Z := Z.of_nat (String.length s).

(** An index of a slice, brought into [0 .. n] as Python does: a negative
    index counts from the end, and both ends are clamped. *)
Definition clamp_index (n i : Z) : Z :=
  if i <? 0 then Z.max 0 (n + i) else Z.min i n.

(** [slice s lo hi] is [s[lo:hi]]; [None] stands for an omitted bound. *)
Definition slice (s : string) (lo hi : option Z) : string :=
  let n := len s in
  let a := match lo with None => 0 | Some i => clamp_index n i end in
  let b := match hi with None => n | Some j => clamp_index n j end in
  substring (Z.to_nat a) (Z.to_nat (b - a)) s.

(** [str.isspace] on code points below 256: tab to carriage return, the four
    separators 28 to 31, the space, NEL (133) and the no-break space (160). *)
Definition isspace (c : ascii) : bool :=
  let n := Z.of_nat (nat_of_ascii c) in
  ((9 <=? n) && (n <=? 13)) || ((28 <=? n) && (n <=? 32))
  || (n =? 133) || (n =? 160).

Fixpoint lstrip (s : string) : string :=
  match s with
  | String c s' => if isspace c then lstrip s' else s
  | EmptyString => EmptyString
  end.

(** [s.rstrip()]: the trailing white space is dropped. *)
Fixpoint rstrip (s : string) : string :=
  match s with
  | EmptyString => EmptyString
  | String c s' =>
      match rstrip s' with
      | EmptyString => if isspace c then EmptyString else String c EmptyString
      | r => String c r
      end
  end.

Definition strip (s : string) : string := rstrip (lstrip s).

(** [s.replace(c, r)] for a pattern [c] of one character. *)
Fixpoint replace_char (c : ascii) (r : string) (s : string) : string :=
  match s with
  | EmptyString => EmptyString
  | String d s' =>
      if Ascii.eqb d c then r ++ replace_char c r s'
      else String d (replace_char c r s')
  end.

(** [s.partition(c)[0]]: what stands before the first [c], all of [s] when
    there is none. *)
Fixpoint partition_head (c : ascii) (s : string) : string :=
  match s with
  | EmptyString => EmptyString
  | String d s' =>
      if Ascii.eqb d c then EmptyString else String d (partition_head c s')
  end.

(** [str(n)] for an [int]. *)
Definition str_of_int (n : Z) : string := NilZero.string_of_int (Z.to_int n).

Definition digit_value (c : ascii) : option Z :=
  let n := Z.of_nat (nat_of_ascii c) in
  if (48 <=? n) && (n <=? 57) then Some (n - 48) else None.

(** What the scan of a decimal literal has just read. *)
Inductive scan : Type := AtStart | AfterDigit | AfterUnderscore.

(** The digits of a decimal literal: one underscore may stand between two
    digits, nowhere else. *)
Fixpoint int_digits (s : string) (acc : Z) (st : scan) : option Z :=
  match s with
  | EmptyString =>
      match st with AfterDigit => Some acc | _ => None end
  | String c s' =>
      match digit_value c with
      | Some d => int_digits s' (10 * acc + d) AfterDigit
      | None =>
          if Ascii.eqb c "_"%char then
            match st with
            | AfterDigit => int_digits s' acc AfterUnderscore
            | _ => None
            end
          else None
      end
  end.

(** [int(s)] in base ten: white space around the literal is ignored, a sign
    may come first; anything else raises [ValueError]. *)
Definition int_of_str (s : string) : result Z :=
  let body := strip s in
  let parsed :=
    match body with
    | String "+"%char r => int_digits r 0 AtStart
    | String "-"%char r => option_map Z.opp (int_digits r 0 AtStart)
    | _ => int_digits body 0 AtStart
    end in
  match parsed with
  | Some n => Ok n
  | None => Raise ValueError
  end.

(** [int(a / b)] for integers [a] and [b], [b] not zero: the true quotient
    truncated towards zero.  Python computes [a / b] in floating point; the
    two agree as long as the operands stay below 2^53 in absolute value,
    which pixel counts, font sizes and text lengths do. *)
Definition int_truediv (a b : Z) : Z := Z.quot a b.

(** *** Dictionaries *)

Definition dict (V : Type) : Type := list (string * V).

Definition keys {V} (d : dict V) : list string := map fst d.

Definition wf_dict {V} (d : dict V) : Prop := NoDup (keys d).

Fixpoint get {V} (k : string) (d : dict V) : option V :=
  match d with
  | [] => None
  | (k', v) :: d' => if String.eqb k k' then Some v else get k d'
  end.

Definition mem {V} (k : string) (d : dict V) : bool :=
  match get k d with Some _ => true | None => false end.

(** [d[k] = v]: the value of an existing key is replaced where it stands, a
    new key goes last. *)
Fixpoint set {V} (k : string) (v : V) (d : dict V) : dict V :=
  match d with
  | [] => [(k, v)]
  | (k', v') :: d' =>
      if String.eqb k k' then (k, v) :: d' else (k', v') :: set k v d'
  end.

(** [d[k]] as an expression. *)
Definition lookup {V} (k : string) (d : dict V) : result V :=
  match get k d with
  | Some v => Ok v
  | None => Raise (KeyError k)
  end.

(** [sorted(keys)]: strings are compared code point by code point. *)
Module StringOrder <: TotalLeBool.
Definition t := string.
Definition leb := String.leb.
Lemma leb_total : forall x y : t, leb x y = true \/ leb y x = true.
Proof. exact String.leb_total. Qed.
End StringOrder.

Module StringSort := Sort StringOrder.

Definition sorted (l : list string) : list string := StringSort.sort l.

End Py.

Import Py.

(** ** DMRIInstall *)

Module DMRIInstall.

(** [textwrap.dedent]: lines of white space only become empty, and the
    longest run of spaces and tabs that starts every other line is removed
    from each line. *)
Fixpoint lines (s : string) (cur : string) : list string :=
  match s with
  | EmptyString => [cur]
  | String c s' =>
      if Ascii.eqb c "010"%char then cur :: lines s' EmptyString
      else lines s' (cur ++ String c EmptyString)
  end.

Definition is_blank (c : ascii) : bool :=
  Ascii.eqb c " "%char || Ascii.eqb c "009"%char.

Fixpoint indent_of (l : string) : string :=
  match l with
  | String c l' => if is_blank c then String c (indent_of l') else EmptyString
  | EmptyString => EmptyString
  end.

Fixpoint all_blank (l : string) : bool :=
  match l with
  | String c l' => is_blank c && all_blank l'
  | EmptyString => true
  end.

Fixpoint common_prefix (a b : string) : string :=
  match a, b with
  | String c a', String d b' =>
      if Ascii.eqb c d then String c (common_prefix a' b') else EmptyString
  | _, _ => EmptyString
  end.

Fixpoint margin (ls : list string) (m : option string) : option string :=
  match ls with
  | [] => m
  | l :: ls' =>
      if all_blank l then margin ls' m
      else margin ls' (Some (match m with
                             | None => indent_of l
                             | Some p => common_prefix p (indent_of l)
                             end))
  end.

Fixpoint join (sep : string) (ls : list string) : string :=
  match ls with
  | [] => EmptyString
  | [l] => l
  | l :: ls' => l ++ sep ++ join sep ls'
  end.

Definition dedent (s : string) : string :=
  let ls := map (fun l => if all_blank l then EmptyString else l)
                (lines s EmptyString) in
  let m := match margin ls None with Some p => p | None => EmptyString end in
  join nl (map (fun l => if prefix m l
                         then substring (String.length m) (String.length l) l
                         else l) ls).

(** [str.format] with keyword arguments, for templates whose replacement
    fields are plain names: a field [{name}] is replaced by the argument
    [name], a doubled brace stands for one brace.  [field] holds the name
    being read, when the scan is inside a field. *)
Fixpoint format_from (s : string) (field : option string)
  (kwargs : dict string) : result string :=
  match s with
  | EmptyString =>
      match field with None => Ok EmptyString | Some _ => Raise ValueError end
  | String c s' =>
      match field with
      | Some name =>
          if Ascii.eqb c "}"%char then
            match get name kwargs, format_from s' None kwargs with
            | None, _ => Raise (KeyError name)
            | Some v, Ok r => Ok (v ++ r)
            | Some _, Raise e => Raise e
            end
          else format_from s' (Some (name ++ String c EmptyString)) kwargs
      | None =>
          if Ascii.eqb c "{"%char then
            match s' with
            | String "{"%char s'' =>
                match format_from s'' None kwargs with
                | Ok r => Ok (String c r)
                | Raise e => Raise e
                end
            | _ => format_from s' (Some EmptyString) kwargs
            end
          else if Ascii.eqb c "}"%char then
            match s' with
            | String "}"%char s'' =>
                match format_from s'' None kwargs with
                | Ok r => Ok (String c r)
                | Raise e => Raise e
                end
            | _ => Raise ValueError
            end
          else
            match format_from s' None kwargs with
            | Ok r => Ok (String c r)
            | Raise e => Raise e
            end
      end
  end.

Definition format (s : string) (kwargs : dict string) : result string :=
  format_from s None kwargs.

(** The host application, as far as the module reads it: the properties of
    [slicer.app], the translation function [_], and what the extensions
    manager model answers. *)
Record Host : Type := {
  applicationVersion : string;
  repositoryRevision : string;
  platform : string;
  tr : string -> string;
  isExtensionInstalled : string -> bool;
  (** the result of the blocking install call, by extension name *)
  installSucceeds : string -> bool
}.

(** The calls the widget makes into the host, in the order made. *)
Inductive HostCall : Type :=
| IsExtensionInstalled (name : string)
| SetInteractive (b : bool)
| UpdateExtensionsMetadataFromServer (force wait : bool)
| DownloadAndInstallExtensionByName (name : string) (deps wait : bool)
| ConfirmRestart (message : string).

(** The widget: its text browser, its button, and the calls made so far. *)
Record Widget : Type := {
  textBox : string;
  applyButton_enabled : bool;
  calls : list HostCall
}.

Definition setHtml (html : string) (w : Widget) : Widget :=
  {| textBox := html;
     applyButton_enabled := applyButton_enabled w;
     calls := calls w |}.

Definition set_applyButton_enabled (b : bool) (w : Widget) : Widget :=
  {| textBox := textBox w; applyButton_enabled := b; calls := calls w |}.

Definition call (c : HostCall) (w : Widget) : Widget :=
  {| textBox := textBox w;
     applyButton_enabled := applyButton_enabled w;
     calls := (calls w ++ [c])%list |}.

Definition errorText_literal : string :=
  join nl
    [ EmptyString;
      "  <h5 style=" ++ dquote ++ "color:red" ++ dquote
        ++ ">The SlicerDMRI extension is currently unavailable.</h5><br>";
      "  Please try a manual installation via the Extensions Manager,";
      "  and contact the Slicer forum at:<br><br>";
      EmptyString;
      "  &nbsp;&nbsp;<a href=" ++ dquote ++ "https://discourse.slicer.org"
        ++ dquote ++ ">https://discourse.slicer.org</a><br><br>";
      EmptyString;
      "  With the following information:<br>";
      "  Slicer version: {builddate}<br>";
      "  Slicer revision: {revision}<br>";
      "  Platform: {platform}";
      "  " ].

(** [DMRIInstall.errorText], computed when the class is defined. *)
Definition errorText (h : Host) : result string :=
  format (dedent errorText_literal)
    [ ("builddate", applicationVersion h);
      ("revision", repositoryRevision h);
      ("platform", platform h) ].

Definition onError (h : Host) (w : Widget) : result Widget :=
  let w := set_applyButton_enabled false w in
  match errorText h with
  | Ok t => Ok (setHtml t w)
  | Raise e => Raise e
  end.

Definition onApply (h : Host) (w : Widget) : result Widget :=
  let w := call (IsExtensionInstalled "SlicerDMRI") w in
  if isExtensionInstalled h "SlicerDMRI" then
    let w := setHtml ("<h4>" ++ tr h "SlicerDMRI is already installed."
                        ++ "<h4>") w in
    let w := set_applyButton_enabled false w in
    Ok w
  else
    let extensionName := "SlicerDMRI" in
    let w := call (SetInteractive false) w in
    let w := call (UpdateExtensionsMetadataFromServer true true) w in
    let w := call (DownloadAndInstallExtensionByName extensionName true true)
               w in
    if negb (installSucceeds h extensionName) then onError h w
    else
      Ok (call (ConfirmRestart
                  (tr h "Restart to complete SlicerDMRI installation?")) w).

End DMRIInstall.

(** ** SliceViewAnnotations *)

Module SliceAnnotations.

(** *** Host objects *)

(** A volume node: its name and its [DICOM.instanceUIDs] attribute
    ([GetAttribute] answers [None] when the attribute is not set). *)
Record VolumeNode : Type := {
  GetName : string;
  DICOM_instanceUIDs : option string
}.

(** A slice node.  The thickness is kept as the text [str] gives of it, the
    reconstruction type as [GetSlabReconstructionTypeAsString] names it. *)
Record SliceNode : Type := {
  GetLayoutName : string;
  GetSlabReconstructionEnabled : bool;
  SlabReconstructionThickness_str : string;
  SlabReconstructionType_str : string
}.

(** A slice composite node.  Opacities are floating point numbers; the model
    keeps the text that the format [%d] gives of a hundred times each. *)
Record SliceCompositeNode : Type := {
  ForegroundOpacity_percent : string;
  LabelOpacity_percent : string
}.

(** A slice logic: its composite node, the volumes of its background,
    foreground and label layers, and the slice node of its background
    layer. *)
Record SliceLogic : Type := {
  GetSliceCompositeNode : option SliceCompositeNode;
  backgroundVolume : option VolumeNode;
  foregroundVolume : option VolumeNode;
  labelVolume : option VolumeNode;
  GetSliceNode : option SliceNode
}.

(** What the module reads of the host and never changes. *)
Record Host : Type := {
  (** [layoutManager.sliceViewNames()] *)
  layout_sliceViewNames : list string;
  (** [layoutManager.sliceWidget(name).sliceLogic()] *)
  sliceLogic : string -> SliceLogic;
  (** [slicer.dicomDatabase.isOpen] *)
  dicomDatabase_isOpen : bool;
  (** [slicer.dicomDatabase.instanceValue(uid, tag)] *)
  instanceValue : string -> string -> string;
  (** the suffix of the unit node of lengths *)
  lengthUnitSuffix : string
}.

(** A slice view: its size, the texts of its corner annotation by position,
    the text property of the annotation, and the renders scheduled. *)
Record SliceView : Type := {
  width : Z;
  height : Z;
  cornerAnnotation : list string;
  maximumFontSize : Z;
  minimumFontSize : Z;
  nonlinearFontScaleFactor : Z;
  textFontFamily : string;
  customFontFile : bool;
  shadow : Z;
  scheduledRenders : nat
}.

Definition with_cornerAnnotation (t : list string) (v : SliceView)
  : SliceView :=
  {| width := width v; height := height v; cornerAnnotation := t;
     maximumFontSize := maximumFontSize v;
     minimumFontSize := minimumFontSize v;
     nonlinearFontScaleFactor := nonlinearFontScaleFactor v;
     textFontFamily := textFontFamily v; customFontFile := customFontFile v;
     shadow := shadow v; scheduledRenders := scheduledRenders v |}.

Definition with_font (size : Z) (family : string) (v : SliceView)
  : SliceView :=
  {| width := width v; height := height v;
     cornerAnnotation := cornerAnnotation v;
     maximumFontSize := size; minimumFontSize := size;
     nonlinearFontScaleFactor := 1;
     textFontFamily := family; customFontFile := true;
     shadow := shadow v; scheduledRenders := scheduledRenders v |}.

Definition with_shadow (b : Z) (v : SliceView) : SliceView :=
  {| width := width v; height := height v;
     cornerAnnotation := cornerAnnotation v;
     maximumFontSize := maximumFontSize v;
     minimumFontSize := minimumFontSize v;
     nonlinearFontScaleFactor := nonlinearFontScaleFactor v;
     textFontFamily := textFontFamily v; customFontFile := customFontFile v;
     shadow := b; scheduledRenders := scheduledRenders v |}.

Definition with_scheduledRender (v : SliceView) : SliceView :=
  {| width := width v; height := height v;
     cornerAnnotation := cornerAnnotation v;
     maximumFontSize := maximumFontSize v;
     minimumFontSize := minimumFontSize v;
     nonlinearFontScaleFactor := nonlinearFontScaleFactor v;
     textFontFamily := textFontFamily v; customFontFile := customFontFile v;
     shadow := shadow v; scheduledRenders := S (scheduledRenders v) |}.

(** *** The annotation manager *)

(** One line of a corner: [{"text": ..., "category": ...}]. *)
Record Entry : Type := {
  text : string;
  category : string
}.

Definition with_text (t : string) (e : Entry) : Entry :=
  {| text := t; category := category e |}.

(** Observed objects and the methods observing them. *)
Inductive Subject : Type :=
| ParameterNode
| LogicOf (sliceViewName : string).

Inductive Method : Type :=
| UpdateViewAnnotations
| UpdateGUIFromMRML.

Definition loc : Type := nat.

(** The attributes of a [SliceAnnotations] object, the widgets of its
    settings window, and the part of the host that it changes. *)
Record State : Type := {
  sliceViewAnnotationsEnabled : Z;
  annotationsDisplayAmount : Z;
  topLeft : Z;
  topRight : Z;
  bottomLeft : Z;
  fontFamily : string;
  fontSize : Z;
  backgroundDICOMAnnotationsPersistence : Z;
  maximumTextLength : Z;
  allowForcingTopRightVisibility : bool;
  dicomVolumeNode : Z;
  cornerTexts : list (dict Entry);
  extractedDICOMValuesCacheSize : Z;
  (** an [OrderedDict]: instance UID to the dictionary of its values *)
  extractedDICOMValuesCache : dict loc;
  sliceViewNames : list string;
  (** view name to slice view (a key of [views]) *)
  sliceViews : dict string;
  sliceViewAnnotationsCheckBox_checked : bool;
  topRightCheckBox_checked : bool;
  (** the [enabled] property that [updateEnabledButtons] gives the four
      groups of settings widgets *)
  parameterWidgets_enabled : Z;
  observers : list (Subject * Method);
  (** [qt.QSettings] *)
  settings : dict Z;
  (** the dictionaries built by [extractDICOMValues], by location *)
  heap : list (dict string);
  (** the slice views of the layout manager, by name *)
  views : dict SliceView;
  (** the [instanceValue] queries made so far *)
  dbLookups : list (string * string)
}.

Definition with_sliceViewAnnotationsEnabled (v : Z) (s : State) : State :=
  {| sliceViewAnnotationsEnabled := v;
     annotationsDisplayAmount := annotationsDisplayAmount s;
     topLeft := topLeft s; topRight := topRight s;
     bottomLeft := bottomLeft s; fontFamily := fontFamily s;
     fontSize := fontSize s;
     backgroundDICOMAnnotationsPersistence := backgroundDICOMAnnotationsPersistence s;
     maximumTextLength := maximumTextLength s;
     allowForcingTopRightVisibility := allowForcingTopRightVisibility s;
     dicomVolumeNode := dicomVolumeNode s; cornerTexts := cornerTexts s;
     extractedDICOMValuesCacheSize := extractedDICOMValuesCacheSize s;
     extractedDICOMValuesCache := extractedDICOMValuesCache s;
     sliceViewNames := sliceViewNames s; sliceViews := sliceViews s;
     sliceViewAnnotationsCheckBox_checked := sliceViewAnnotationsCheckBox_checked s;
     topRightCheckBox_checked := topRightCheckBox_checked s;
     parameterWidgets_enabled := parameterWidgets_enabled s;
     observers := observers s; settings := settings s; heap := heap s;
     views := views s; dbLookups := dbLookups s |}.

Definition with_topRight (v : Z) (s : State) : State :=
  {| sliceViewAnnotationsEnabled := sliceViewAnnotationsEnabled s;
     annotationsDisplayAmount := annotationsDisplayAmount s;
     topLeft := topLeft s; topRight := v; bottomLeft := bottomLeft s;
     fontFamily := fontFamily s; fontSize := fontSize s;
     backgroundDICOMAnnotationsPersistence := backgroundDICOMAnnotationsPersistence s;
     maximumTextLength := maximumTextLength s;
     allowForcingTopRightVisibility := allowForcingTopRightVisibility s;
     dicomVolumeNode := dicomVolumeNode s; cornerTexts := cornerTexts s;
     extractedDICOMValuesCacheSize := extractedDICOMValuesCacheSize s;
     extractedDICOMValuesCache := extractedDICOMValuesCache s;
     sliceViewNames := sliceViewNames s; sliceViews := sliceViews s;
     sliceViewAnnotationsCheckBox_checked := sliceViewAnnotationsCheckBox_checked s;
     topRightCheckBox_checked := topRightCheckBox_checked s;
     parameterWidgets_enabled := parameterWidgets_enabled s;
     observers := observers s; settings := settings s; heap := heap s;
     views := views s; dbLookups := dbLookups s |}.

Definition with_maximumTextLength (v : Z) (s : State) : State :=
  {| sliceViewAnnotationsEnabled := sliceViewAnnotationsEnabled s;
     annotationsDisplayAmount := annotationsDisplayAmount s;
     topLeft := topLeft s; topRight := topRight s;
     bottomLeft := bottomLeft s; fontFamily := fontFamily s;
     fontSize := fontSize s;
     backgroundDICOMAnnotationsPersistence := backgroundDICOMAnnotationsPersistence s;
     maximumTextLength := v;
     allowForcingTopRightVisibility := allowForcingTopRightVisibility s;
     dicomVolumeNode := dicomVolumeNode s; cornerTexts := cornerTexts s;
     extractedDICOMValuesCacheSize := extractedDICOMValuesCacheSize s;
     extractedDICOMValuesCache := extractedDICOMValuesCache s;
     sliceViewNames := sliceViewNames s; sliceViews := sliceViews s;
     sliceViewAnnotationsCheckBox_checked := sliceViewAnnotationsCheckBox_checked s;
     topRightCheckBox_checked := topRightCheckBox_checked s;
     parameterWidgets_enabled := parameterWidgets_enabled s;
     observers := observers s; settings := settings s; heap := heap s;
     views := views s; dbLookups := dbLookups s |}.

Definition with_allowForcingTopRightVisibility (v : bool) (s : State) : State :=
  {| sliceViewAnnotationsEnabled := sliceViewAnnotationsEnabled s;
     annotationsDisplayAmount := annotationsDisplayAmount s;
     topLeft := topLeft s; topRight := topRight s;
     bottomLeft := bottomLeft s; fontFamily := fontFamily s;
     fontSize := fontSize s;
     backgroundDICOMAnnotationsPersistence := backgroundDICOMAnnotationsPersistence s;
     maximumTextLength := maximumTextLength s;
     allowForcingTopRightVisibility := v;
     dicomVolumeNode := dicomVolumeNode s; cornerTexts := cornerTexts s;
     extractedDICOMValuesCacheSize := extractedDICOMValuesCacheSize s;
     extractedDICOMValuesCache := extractedDICOMValuesCache s;
     sliceViewNames := sliceViewNames s; sliceViews := sliceViews s;
     sliceViewAnnotationsCheckBox_checked := sliceViewAnnotationsCheckBox_checked s;
     topRightCheckBox_checked := topRightCheckBox_checked s;
     parameterWidgets_enabled := parameterWidgets_enabled s;
     observers := observers s; settings := settings s; heap := heap s;
     views := views s; dbLookups := dbLookups s |}.

Definition with_dicomVolumeNode (v : Z) (s : State) : State :=
  {| sliceViewAnnotationsEnabled := sliceViewAnnotationsEnabled s;
     annotationsDisplayAmount := annotationsDisplayAmount s;
     topLeft := topLeft s; topRight := topRight s;
     bottomLeft := bottomLeft s; fontFamily := fontFamily s;
     fontSize := fontSize s;
     backgroundDICOMAnnotationsPersistence := backgroundDICOMAnnotationsPersistence s;
     maximumTextLength := maximumTextLength s;
     allowForcingTopRightVisibility := allowForcingTopRightVisibility s;
     dicomVolumeNode := v; cornerTexts := cornerTexts s;
     extractedDICOMValuesCacheSize := extractedDICOMValuesCacheSize s;
     extractedDICOMValuesCache := extractedDICOMValuesCache s;
     sliceViewNames := sliceViewNames s; sliceViews := sliceViews s;
     sliceViewAnnotationsCheckBox_checked := sliceViewAnnotationsCheckBox_checked s;
     topRightCheckBox_checked := topRightCheckBox_checked s;
     parameterWidgets_enabled := parameterWidgets_enabled s;
     observers := observers s; settings := settings s; heap := heap s;
     views := views s; dbLookups := dbLookups s |}.

Definition with_cornerTexts (v : list (dict Entry)) (s : State) : State :=
  {| sliceViewAnnotationsEnabled := sliceViewAnnotationsEnabled s;
     annotationsDisplayAmount := annotationsDisplayAmount s;
     topLeft := topLeft s; topRight := topRight s;
     bottomLeft := bottomLeft s; fontFamily := fontFamily s;
     fontSize := fontSize s;
     backgroundDICOMAnnotationsPersistence := backgroundDICOMAnnotationsPersistence s;
     maximumTextLength := maximumTextLength s;
     allowForcingTopRightVisibility := allowForcingTopRightVisibility s;
     dicomVolumeNode := dicomVolumeNode s; cornerTexts := v;
     extractedDICOMValuesCacheSize := extractedDICOMValuesCacheSize s;
     extractedDICOMValuesCache := extractedDICOMValuesCache s;
     sliceViewNames := sliceViewNames s; sliceViews := sliceViews s;
     sliceViewAnnotationsCheckBox_checked := sliceViewAnnotationsCheckBox_checked s;
     topRightCheckBox_checked := topRightCheckBox_checked s;
     parameterWidgets_enabled := parameterWidgets_enabled s;
     observers := observers s; settings := settings s; heap := heap s;
     views := views s; dbLookups := dbLookups s |}.

Definition with_extractedDICOMValuesCache (v : dict loc) (s : State) : State :=
  {| sliceViewAnnotationsEnabled := sliceViewAnnotationsEnabled s;
     annotationsDisplayAmount := annotationsDisplayAmount s;
     topLeft := topLeft s; topRight := topRight s;
     bottomLeft := bottomLeft s; fontFamily := fontFamily s;
     fontSize := fontSize s;
     backgroundDICOMAnnotationsPersistence := backgroundDICOMAnnotationsPersistence s;
     maximumTextLength := maximumTextLength s;
     allowForcingTopRightVisibility := allowForcingTopRightVisibility s;
     dicomVolumeNode := dicomVolumeNode s; cornerTexts := cornerTexts s;
     extractedDICOMValuesCacheSize := extractedDICOMValuesCacheSize s;
     extractedDICOMValuesCache := v; sliceViewNames := sliceViewNames s;
     sliceViews := sliceViews s;
     sliceViewAnnotationsCheckBox_checked := sliceViewAnnotationsCheckBox_checked s;
     topRightCheckBox_checked := topRightCheckBox_checked s;
     parameterWidgets_enabled := parameterWidgets_enabled s;
     observers := observers s; settings := settings s; heap := heap s;
     views := views s; dbLookups := dbLookups s |}.

Definition with_sliceViewNames (v : list string) (s : State) : State :=
  {| sliceViewAnnotationsEnabled := sliceViewAnnotationsEnabled s;
     annotationsDisplayAmount := annotationsDisplayAmount s;
     topLeft := topLeft s; topRight := topRight s;
     bottomLeft := bottomLeft s; fontFamily := fontFamily s;
     fontSize := fontSize s;
     backgroundDICOMAnnotationsPersistence := backgroundDICOMAnnotationsPersistence s;
     maximumTextLength := maximumTextLength s;
     allowForcingTopRightVisibility := allowForcingTopRightVisibility s;
     dicomVolumeNode := dicomVolumeNode s; cornerTexts := cornerTexts s;
     extractedDICOMValuesCacheSize := extractedDICOMValuesCacheSize s;
     extractedDICOMValuesCache := extractedDICOMValuesCache s;
     sliceViewNames := v; sliceViews := sliceViews s;
     sliceViewAnnotationsCheckBox_checked := sliceViewAnnotationsCheckBox_checked s;
     topRightCheckBox_checked := topRightCheckBox_checked s;
     parameterWidgets_enabled := parameterWidgets_enabled s;
     observers := observers s; settings := settings s; heap := heap s;
     views := views s; dbLookups := dbLookups s |}.

Definition with_sliceViews (v : dict string) (s : State) : State :=
  {| sliceViewAnnotationsEnabled := sliceViewAnnotationsEnabled s;
     annotationsDisplayAmount := annotationsDisplayAmount s;
     topLeft := topLeft s; topRight := topRight s;
     bottomLeft := bottomLeft s; fontFamily := fontFamily s;
     fontSize := fontSize s;
     backgroundDICOMAnnotationsPersistence := backgroundDICOMAnnotationsPersistence s;
     maximumTextLength := maximumTextLength s;
     allowForcingTopRightVisibility := allowForcingTopRightVisibility s;
     dicomVolumeNode := dicomVolumeNode s; cornerTexts := cornerTexts s;
     extractedDICOMValuesCacheSize := extractedDICOMValuesCacheSize s;
     extractedDICOMValuesCache := extractedDICOMValuesCache s;
     sliceViewNames := sliceViewNames s; sliceViews := v;
     sliceViewAnnotationsCheckBox_checked := sliceViewAnnotationsCheckBox_checked s;
     topRightCheckBox_checked := topRightCheckBox_checked s;
     parameterWidgets_enabled := parameterWidgets_enabled s;
     observers := observers s; settings := settings s; heap := heap s;
     views := views s; dbLookups := dbLookups s |}.

Definition with_sliceViewAnnotationsCheckBox_checked (v : bool) (s : State) : State :=
  {| sliceViewAnnotationsEnabled := sliceViewAnnotationsEnabled s;
     annotationsDisplayAmount := annotationsDisplayAmount s;
     topLeft := topLeft s; topRight := topRight s;
     bottomLeft := bottomLeft s; fontFamily := fontFamily s;
     fontSize := fontSize s;
     backgroundDICOMAnnotationsPersistence := backgroundDICOMAnnotationsPersistence s;
     maximumTextLength := maximumTextLength s;
     allowForcingTopRightVisibility := allowForcingTopRightVisibility s;
     dicomVolumeNode := dicomVolumeNode s; cornerTexts := cornerTexts s;
     extractedDICOMValuesCacheSize := extractedDICOMValuesCacheSize s;
     extractedDICOMValuesCache := extractedDICOMValuesCache s;
     sliceViewNames := sliceViewNames s; sliceViews := sliceViews s;
     sliceViewAnnotationsCheckBox_checked := v;
     topRightCheckBox_checked := topRightCheckBox_checked s;
     parameterWidgets_enabled := parameterWidgets_enabled s;
     observers := observers s; settings := settings s; heap := heap s;
     views := views s; dbLookups := dbLookups s |}.

Definition with_topRightCheckBox_checked (v : bool) (s : State) : State :=
  {| sliceViewAnnotationsEnabled := sliceViewAnnotationsEnabled s;
     annotationsDisplayAmount := annotationsDisplayAmount s;
     topLeft := topLeft s; topRight := topRight s;
     bottomLeft := bottomLeft s; fontFamily := fontFamily s;
     fontSize := fontSize s;
     backgroundDICOMAnnotationsPersistence := backgroundDICOMAnnotationsPersistence s;
     maximumTextLength := maximumTextLength s;
     allowForcingTopRightVisibility := allowForcingTopRightVisibility s;
     dicomVolumeNode := dicomVolumeNode s; cornerTexts := cornerTexts s;
     extractedDICOMValuesCacheSize := extractedDICOMValuesCacheSize s;
     extractedDICOMValuesCache := extractedDICOMValuesCache s;
     sliceViewNames := sliceViewNames s; sliceViews := sliceViews s;
     sliceViewAnnotationsCheckBox_checked := sliceViewAnnotationsCheckBox_checked s;
     topRightCheckBox_checked := v;
     parameterWidgets_enabled := parameterWidgets_enabled s;
     observers := observers s; settings := settings s; heap := heap s;
     views := views s; dbLookups := dbLookups s |}.

Definition with_parameterWidgets_enabled (v : Z) (s : State) : State :=
  {| sliceViewAnnotationsEnabled := sliceViewAnnotationsEnabled s;
     annotationsDisplayAmount := annotationsDisplayAmount s;
     topLeft := topLeft s; topRight := topRight s;
     bottomLeft := bottomLeft s; fontFamily := fontFamily s;
     fontSize := fontSize s;
     backgroundDICOMAnnotationsPersistence := backgroundDICOMAnnotationsPersistence s;
     maximumTextLength := maximumTextLength s;
     allowForcingTopRightVisibility := allowForcingTopRightVisibility s;
     dicomVolumeNode := dicomVolumeNode s; cornerTexts := cornerTexts s;
     extractedDICOMValuesCacheSize := extractedDICOMValuesCacheSize s;
     extractedDICOMValuesCache := extractedDICOMValuesCache s;
     sliceViewNames := sliceViewNames s; sliceViews := sliceViews s;
     sliceViewAnnotationsCheckBox_checked := sliceViewAnnotationsCheckBox_checked s;
     topRightCheckBox_checked := topRightCheckBox_checked s;
     parameterWidgets_enabled := v; observers := observers s;
     settings := settings s; heap := heap s; views := views s;
     dbLookups := dbLookups s |}.

Definition with_observers (v : list (Subject * Method)) (s : State) : State :=
  {| sliceViewAnnotationsEnabled := sliceViewAnnotationsEnabled s;
     annotationsDisplayAmount := annotationsDisplayAmount s;
     topLeft := topLeft s; topRight := topRight s;
     bottomLeft := bottomLeft s; fontFamily := fontFamily s;
     fontSize := fontSize s;
     backgroundDICOMAnnotationsPersistence := backgroundDICOMAnnotationsPersistence s;
     maximumTextLength := maximumTextLength s;
     allowForcingTopRightVisibility := allowForcingTopRightVisibility s;
     dicomVolumeNode := dicomVolumeNode s; cornerTexts := cornerTexts s;
     extractedDICOMValuesCacheSize := extractedDICOMValuesCacheSize s;
     extractedDICOMValuesCache := extractedDICOMValuesCache s;
     sliceViewNames := sliceViewNames s; sliceViews := sliceViews s;
     sliceViewAnnotationsCheckBox_checked := sliceViewAnnotationsCheckBox_checked s;
     topRightCheckBox_checked := topRightCheckBox_checked s;
     parameterWidgets_enabled := parameterWidgets_enabled s;
     observers := v; settings := settings s; heap := heap s;
     views := views s; dbLookups := dbLookups s |}.

Definition with_settings (v : dict Z) (s : State) : State :=
  {| sliceViewAnnotationsEnabled := sliceViewAnnotationsEnabled s;
     annotationsDisplayAmount := annotationsDisplayAmount s;
     topLeft := topLeft s; topRight := topRight s;
     bottomLeft := bottomLeft s; fontFamily := fontFamily s;
     fontSize := fontSize s;
     backgroundDICOMAnnotationsPersistence := backgroundDICOMAnnotationsPersistence s;
     maximumTextLength := maximumTextLength s;
     allowForcingTopRightVisibility := allowForcingTopRightVisibility s;
     dicomVolumeNode := dicomVolumeNode s; cornerTexts := cornerTexts s;
     extractedDICOMValuesCacheSize := extractedDICOMValuesCacheSize s;
     extractedDICOMValuesCache := extractedDICOMValuesCache s;
     sliceViewNames := sliceViewNames s; sliceViews := sliceViews s;
     sliceViewAnnotationsCheckBox_checked := sliceViewAnnotationsCheckBox_checked s;
     topRightCheckBox_checked := topRightCheckBox_checked s;
     parameterWidgets_enabled := parameterWidgets_enabled s;
     observers := observers s; settings := v; heap := heap s;
     views := views s; dbLookups := dbLookups s |}.

Definition with_heap (v : list (dict string)) (s : State) : State :=
  {| sliceViewAnnotationsEnabled := sliceViewAnnotationsEnabled s;
     annotationsDisplayAmount := annotationsDisplayAmount s;
     topLeft := topLeft s; topRight := topRight s;
     bottomLeft := bottomLeft s; fontFamily := fontFamily s;
     fontSize := fontSize s;
     backgroundDICOMAnnotationsPersistence := backgroundDICOMAnnotationsPersistence s;
     maximumTextLength := maximumTextLength s;
     allowForcingTopRightVisibility := allowForcingTopRightVisibility s;
     dicomVolumeNode := dicomVolumeNode s; cornerTexts := cornerTexts s;
     extractedDICOMValuesCacheSize := extractedDICOMValuesCacheSize s;
     extractedDICOMValuesCache := extractedDICOMValuesCache s;
     sliceViewNames := sliceViewNames s; sliceViews := sliceViews s;
     sliceViewAnnotationsCheckBox_checked := sliceViewAnnotationsCheckBox_checked s;
     topRightCheckBox_checked := topRightCheckBox_checked s;
     parameterWidgets_enabled := parameterWidgets_enabled s;
     observers := observers s; settings := settings s; heap := v;
     views := views s; dbLookups := dbLookups s |}.

Definition with_views (v : dict SliceView) (s : State) : State :=
  {| sliceViewAnnotationsEnabled := sliceViewAnnotationsEnabled s;
     annotationsDisplayAmount := annotationsDisplayAmount s;
     topLeft := topLeft s; topRight := topRight s;
     bottomLeft := bottomLeft s; fontFamily := fontFamily s;
     fontSize := fontSize s;
     backgroundDICOMAnnotationsPersistence := backgroundDICOMAnnotationsPersistence s;
     maximumTextLength := maximumTextLength s;
     allowForcingTopRightVisibility := allowForcingTopRightVisibility s;
     dicomVolumeNode := dicomVolumeNode s; cornerTexts := cornerTexts s;
     extractedDICOMValuesCacheSize := extractedDICOMValuesCacheSize s;
     extractedDICOMValuesCache := extractedDICOMValuesCache s;
     sliceViewNames := sliceViewNames s; sliceViews := sliceViews s;
     sliceViewAnnotationsCheckBox_checked := sliceViewAnnotationsCheckBox_checked s;
     topRightCheckBox_checked := topRightCheckBox_checked s;
     parameterWidgets_enabled := parameterWidgets_enabled s;
     observers := observers s; settings := settings s; heap := heap s;
     views := v; dbLookups := dbLookups s |}.

Definition with_dbLookups (v : list (string * string)) (s : State) : State :=
  {| sliceViewAnnotationsEnabled := sliceViewAnnotationsEnabled s;
     annotationsDisplayAmount := annotationsDisplayAmount s;
     topLeft := topLeft s; topRight := topRight s;
     bottomLeft := bottomLeft s; fontFamily := fontFamily s;
     fontSize := fontSize s;
     backgroundDICOMAnnotationsPersistence := backgroundDICOMAnnotationsPersistence s;
     maximumTextLength := maximumTextLength s;
     allowForcingTopRightVisibility := allowForcingTopRightVisibility s;
     dicomVolumeNode := dicomVolumeNode s; cornerTexts := cornerTexts s;
     extractedDICOMValuesCacheSize := extractedDICOMValuesCacheSize s;
     extractedDICOMValuesCache := extractedDICOMValuesCache s;
     sliceViewNames := sliceViewNames s; sliceViews := sliceViews s;
     sliceViewAnnotationsCheckBox_checked := sliceViewAnnotationsCheckBox_checked s;
     topRightCheckBox_checked := topRightCheckBox_checked s;
     parameterWidgets_enabled := parameterWidgets_enabled s;
     observers := observers s; settings := settings s; heap := heap s;
     views := views s; dbLookups := v |}.

(** *** Statements: state passing with exceptions *)

Definition M (A : Type) : Type := State -> result (A * State).

Definition ret {A} (a : A) : M A := fun s => Ok (a, s).

Definition bind {A B} (m : M A) (k : A -> M B) : M B :=
  fun s => match m s with
           | Ok (a, s') => k a s'
           | Raise e => Raise e
           end.

Definition raise {A} (e : exn) : M A := fun _ => Raise e.

Definition gets {A} (f : State -> A) : M A := fun s => Ok (f s, s).

Definition modify (f : State -> State) : M unit := fun s => Ok (tt, f s).

Definition lift {A} (r : result A) : M A :=
  fun s => match r with Ok a => Ok (a, s) | Raise e => Raise e end.

Notation "x <- m ;; k" := (bind m (fun x => k))
  (at level 61, m at next level, right associativity).
Notation "m ;; k" := (bind m (fun _ => k))
  (at level 61, right associativity).

(** [for x in l: body]. *)
Fixpoint for_ {A} (l : list A) (body : A -> M unit) : M unit :=
  match l with
  | [] => ret tt
  | x :: l' => body x ;; for_ l' body
  end.

Definition when (b : bool) (m : M unit) : M unit :=
  if b then m else ret tt.

(** [enumerate(l)]. *)
Fixpoint enumerate_from {A} (i : nat) (l : list A) : list (nat * A) :=
  match l with
  | [] => []
  | x :: l' => (i, x) :: enumerate_from (S i) l'
  end.

Definition enumerate {A} (l : list A) : list (nat * A) := enumerate_from 0 l.

(** [l[i] = x] for a position of the list; other positions raise before the
    model comes here. *)
Fixpoint list_set {A} (i : nat) (x : A) (l : list A) : list A :=
  match l, i with
  | [], _ => []
  | _ :: l', O => x :: l'
  | y :: l', S i' => y :: list_set i' x l'
  end.

(** The truth value of an [int] and of a [str] or [None]. *)
Definition truthy (n : Z) : bool := negb (n =? 0).

Definition nonempty (o : option string) : bool :=
  match o with
  | Some s => negb (String.eqb s EmptyString)
  | None => false
  end.

(** **** The corner texts *)

(** [self.cornerTexts] as [__init__] builds it: bottom left, bottom right,
    top left, top right. *)
Definition entry (c : string) : Entry := {| text := EmptyString; category := c |}.

Definition initial_cornerTexts : list (dict Entry) :=
  [ [ ("1-Label", entry "A"); ("2-Foreground", entry "A");
      ("3-Background", entry "A") ];
    [ ("1-TR", entry "A"); ("2-TE", entry "A") ];
    [ ("1-PatientName", entry "B"); ("2-PatientID", entry "A");
      ("3-PatientInfo", entry "B"); ("4-Bg-SeriesDate", entry "B");
      ("5-Fg-SeriesDate", entry "B"); ("6-Bg-SeriesTime", entry "C");
      ("7-Bg-SeriesTime", entry "C"); ("8-Bg-SeriesDescription", entry "C");
      ("9-Fg-SeriesDescription", entry "C") ];
    [ ("1-Institution-Name", entry "B"); ("2-Referring-Phisycian", entry "B");
      ("3-Manufacturer", entry "C"); ("4-Model", entry "C");
      ("5-Patient-Position", entry "A"); ("6-TR", entry "A");
      ("7-TE", entry "A"); ("8-SlabReconstructionThickness", entry "A");
      ("9-SlabReconstructionType", entry "A") ] ].

(** [self.cornerTexts[i]]. *)
Definition cornerText_at (i : nat) : M (dict Entry) :=
  fun s => match nth_error (cornerTexts s) i with
           | Some d => Ok (d, s)
           | None => Raise IndexError
           end.

(** [self.cornerTexts[i][key]["text"] = t]. *)
Definition set_cornerText (i : nat) (key : string) (t : string) : M unit :=
  d <- cornerText_at i ;;
  e <- lift (lookup key d) ;;
  modify (fun s =>
    with_cornerTexts (list_set i (set key (with_text t e) d) (cornerTexts s)) s).

(** [self.cornerTexts[i][key]["text"] = value]: the value is computed first. *)
Definition assign (i : nat) (key : string) (value : M string) : M unit :=
  t <- value ;;
  set_cornerText i key t.

(** [if key in self.cornerTexts[i]: self.cornerTexts[i][key]["text"] = value]. *)
Definition assign_if_present (i : nat) (key : string) (value : M string)
  : M unit :=
  d <- cornerText_at i ;;
  when (mem key d) (assign i key value).

(** [for key in self.cornerTexts[i]: self.cornerTexts[i][key]["text"] = ""]. *)
Definition clear_cornerText (i : nat) : M unit :=
  d <- cornerText_at i ;;
  for_ (keys d) (fun key => set_cornerText i key EmptyString).

Definition resetTexts : M unit :=
  cts <- gets cornerTexts ;;
  for_ (enumerate cts) (fun '(i, cornerText) =>
    for_ (keys cornerText) (fun key => set_cornerText i key EmptyString)).

(** **** Formatting *)

Definition formatDICOMDate (date : string) : string :=
  if negb (String.eqb date EmptyString) then
    let date := rstrip date in
    slice date None (Some 4) ++ "-" ++ slice date (Some 4) (Some 6) ++ "-"
    ++ slice date (Some 6) None
  else EmptyString.

Definition formatDICOMTime (time : string) : result string :=
  if String.eqb time EmptyString then Ok EmptyString
  else
    let studyH := slice time None (Some 2) in
    match int_of_str studyH with
    | Raise e => Raise e
    | Ok h =>
        let '(studyH, clockTime) :=
          if h >? 12 then (str_of_int (h - 12), " PM") else (studyH, " AM") in
        let studyM := slice time (Some 2) (Some 4) in
        let studyS := slice time (Some 4) (Some 6) in
        Ok (studyH ++ ":" ++ studyM ++ ":" ++ studyS ++ clockTime)
    end.

Definition fitText (text : string) (textSize : Z) : string :=
  if len text >? textSize then
    let preSize := int_truediv textSize 2 in
    let postSize := preSize - 3 in
    slice text None (Some preSize) ++ "..."
    ++ slice text (Some (- postSize)) None
  else text.

(** **** The cache of extracted DICOM values *)

Definition tags : dict string :=
  [ ("0008,0021", "Series Date");
    ("0008,0031", "Series Time");
    ("0008,0060", "Modality");
    ("0008,0070", "Manufacturer");
    ("0008,0080", "Institution Name");
    ("0008,0090", "Referring Physician Name");
    ("0008,103e", "Series Description");
    ("0008,1090", "Model");
    ("0010,0010", "Patient Name");
    ("0010,0020", "Patient ID");
    ("0010,0030", "Patient Birth Date");
    ("0010,0040", "Patient Sex");
    ("0010,1010", "Patient Age");
    ("0018,5100", "Patient Position");
    ("0018,0080", "Repetition Time");
    ("0018,0081", "Echo Time") ].

(** [slicer.dicomDatabase.instanceValue(uid, tag)]; the query is recorded. *)
Definition query (h : Host) (uid tag : string) : M string :=
  modify (fun s => with_dbLookups (dbLookups s ++ [(uid, tag)])%list s) ;;
  ret (instanceValue h uid tag).

(** The loop that fills [p]: [for tag in tags.keys(): p[tags[tag]] = value]. *)
Fixpoint fill (h : Host) (uid : string) (ts : list string) (p : dict string)
  : M (dict string) :=
  match ts with
  | [] => ret p
  | tag :: ts' =>
      value <- query h uid tag ;;
      name <- lift (lookup tag tags) ;;
      fill h uid ts' (set name value p)
  end.

(** A new dictionary object: its location in the heap. *)
Definition alloc (p : dict string) : M loc :=
  fun s => Ok (List.length (heap s), with_heap (heap s ++ [p])%list s).

(** [OrderedDict.popitem(last=False)]: the first item is removed. *)
Definition popitem_first {V} (d : dict V) : result (dict V) :=
  match d with
  | [] => Raise (KeyError "dictionary is empty")
  | _ :: d' => Ok d'
  end.

Definition extractDICOMValues (h : Host) (uid : string) : M loc :=
  cache <- gets extractedDICOMValuesCache ;;
  if mem uid cache then lift (lookup uid cache)
  else
    p <- fill h uid (keys tags) [] ;;
    l <- alloc p ;;
    modify (fun s => with_extractedDICOMValuesCache
                       (set uid l (extractedDICOMValuesCache s)) s) ;;
    cache <- gets extractedDICOMValuesCache ;;
    size <- gets extractedDICOMValuesCacheSize ;;
    when (Z.of_nat (List.length cache) >? size)
      (cache' <- lift (popitem_first cache) ;;
       modify (with_extractedDICOMValuesCache cache')) ;;
    ret l.

(** [dic[key]] and [dic[key] = v] for a dictionary of DICOM values. *)
Definition dic_get (dic : loc) (key : string) : M string :=
  fun s => match nth_error (heap s) dic with
           | Some d => lift (lookup key d) s
           | None => Raise IndexError
           end.

Definition dic_set (dic : loc) (key : string) (v : string) : M unit :=
  fun s => match nth_error (heap s) dic with
           | Some d => Ok (tt, with_heap (list_set dic (set key v d) (heap s)) s)
           | None => Raise IndexError
           end.

Definition makePatientInfo (dicomDic : loc) : M string :=
  birth <- dic_get dicomDic "Patient Birth Date" ;;
  age <- dic_get dicomDic "Patient Age" ;;
  sex <- dic_get dicomDic "Patient Sex" ;;
  ret (birth ++ ", " ++ age ++ ", " ++ sex).

(** **** The slice views *)

(** [self.sliceViews[sliceViewName]]: the name of the view and the view. *)
Definition sliceView_of (sliceViewName : string) : M (string * SliceView) :=
  fun s => match get sliceViewName (sliceViews s) with
           | None => Raise (KeyError sliceViewName)
           | Some ref =>
               match get ref (views s) with
               | Some v => Ok ((ref, v), s)
               | None => Raise AttributeError
               end
           end.

(** A method of the view [self.sliceViews[sliceViewName]] that changes it. *)
Definition on_sliceView (sliceViewName : string) (f : SliceView -> SliceView)
  : M unit :=
  rv <- sliceView_of sliceViewName ;;
  modify (fun s => with_views (set (fst rv) (f (snd rv)) (views s)) s).

(** [vtkCornerAnnotation.SetText(i, text)]; a position that does not exist is
    left alone. *)
Definition SetText (i : nat) (t : string) (v : SliceView) : SliceView :=
  with_cornerAnnotation (list_set i t (cornerAnnotation v)) v.

(** The text of one corner: the inner loop of [drawCornerAnnotations]. *)
Definition add_line (level maxLen : Z) (cornerText : dict Entry)
  (acc : result string) (key : string) : result string :=
  match acc with
  | Raise e => Raise e
  | Ok cornerAnnotation =>
      match get key cornerText with
      | None => Raise (KeyError key)
      | Some e =>
          let text := text e in
          if negb (String.eqb text EmptyString) then
            let text := fitText text maxLen in
            if level =? 0 then Ok (cornerAnnotation ++ text ++ nl)
            else if level =? 1 then
              if negb (String.eqb (category e) "C")
              then Ok (cornerAnnotation ++ text ++ nl)
              else Ok cornerAnnotation
            else if level =? 2 then
              if String.eqb (category e) "A"
              then Ok (cornerAnnotation ++ text ++ nl)
              else Ok cornerAnnotation
            else Ok cornerAnnotation
          else Ok cornerAnnotation
      end
  end.

Definition cornerAnnotation_of (level maxLen : Z) (cornerText : dict Entry)
  : result string :=
  let keys := sorted (keys cornerText) in
  fold_left (add_line level maxLen cornerText) keys (Ok EmptyString).

Definition drawCornerAnnotations (sliceViewName : string) : M unit :=
  enabled <- gets sliceViewAnnotationsEnabled ;;
  if negb (truthy enabled) then ret tt
  else
    rv <- sliceView_of sliceViewName ;;
    let viewWidth := width (snd rv) in
    fontSize <- gets fontSize ;;
    (if fontSize =? 0 then raise ZeroDivisionError
     else modify (with_maximumTextLength
                    (int_truediv (viewWidth - 40) fontSize))) ;;
    cts <- gets cornerTexts ;;
    for_ (enumerate cts) (fun '(i, cornerText) =>
      level <- gets annotationsDisplayAmount ;;
      maxLen <- gets maximumTextLength ;;
      cornerAnnotation <- lift (cornerAnnotation_of level maxLen cornerText) ;;
      on_sliceView sliceViewName (SetText i cornerAnnotation) ;;
      on_sliceView sliceViewName (with_shadow 1)) ;;
    on_sliceView sliceViewName with_scheduledRender.

(** **** DICOM annotations *)

(** [a[key] != b[key]]. *)
Definition differ (a b : loc) (key : string) : M bool :=
  x <- dic_get a key ;;
  y <- dic_get b key ;;
  ret (negb (String.eqb x y)).

(** [c1 or c2]: the second operand is evaluated only if the first is false. *)
Definition orM (c1 c2 : M bool) : M bool :=
  x <- c1 ;;
  if x then ret true else c2.

(** [f(dic[key])]. *)
Definition field (f : string -> string) (dic : loc) (key : string)
  : M string :=
  x <- dic_get dic key ;;
  ret (f x).

(** [prefix + self.formatDICOMTime(dic[key])]. *)
Definition time_field (prefix : string) (dic : loc) (key : string)
  : M string :=
  x <- dic_get dic key ;;
  t <- lift (formatDICOMTime x) ;;
  ret (prefix ++ t).

Definition caret_to_comma : string -> string := replace_char "^"%char ", ".

Definition makeDicomAnnotation (h : Host) (bgUid : string)
  (fgUid : option string) (sliceViewName : string) : M unit :=
  if negb (dicomDatabase_isOpen h) then ret tt
  else
    rv <- sliceView_of sliceViewName ;;
    let viewHeight := height (snd rv) in
    match fgUid with
    | Some fgUid =>
        backgroundDicomDic <- extractDICOMValues h bgUid ;;
        foregroundDicomDic <- extractDICOMValues h fgUid ;;
        let bg := backgroundDicomDic in
        let fg := foregroundDicomDic in
        topLeft <- gets topLeft ;;
        when (truthy topLeft && (viewHeight >? 150))
          (other <- orM (differ bg fg "Patient Name")
                      (orM (differ bg fg "Patient ID")
                           (differ bg fg "Patient Birth Date")) ;;
           if other then clear_cornerText 2
           else
             assign_if_present 2 "1-PatientName"
               (field caret_to_comma bg "Patient Name") ;;
             assign_if_present 2 "2-PatientID"
               (field (append "ID: ") bg "Patient ID") ;;
             (birth <- dic_get bg "Patient Birth Date" ;;
              dic_set bg "Patient Birth Date" (formatDICOMDate birth)) ;;
             assign_if_present 2 "3-PatientInfo" (makePatientInfo bg) ;;
             (d <- differ bg fg "Series Date" ;;
              if d then
                assign_if_present 2 "4-Bg-SeriesDate"
                  (field (fun x => "B: " ++ formatDICOMDate x) bg
                     "Series Date") ;;
                assign_if_present 2 "5-Fg-SeriesDate"
                  (field (fun x => "F: " ++ formatDICOMDate x) fg
                     "Series Date")
              else
                assign_if_present 2 "4-Bg-SeriesDate"
                  (field formatDICOMDate bg "Series Date")) ;;
             (d <- differ bg fg "Series Time" ;;
              if d then
                assign_if_present 2 "6-Bg-SeriesTime"
                  (time_field "B: " bg "Series Time") ;;
                assign_if_present 2 "7-Fg-SeriesTime"
                  (time_field "F: " fg "Series Time")
              else
                assign_if_present 2 "6-Bg-SeriesTime"
                  (time_field EmptyString bg "Series Time")) ;;
             (d <- differ bg fg "Series Description" ;;
              if d then
                assign_if_present 2 "8-Bg-SeriesDescription"
                  (field (append "B: ") bg "Series Description") ;;
                assign_if_present 2 "9-Fg-SeriesDescription"
                  (field (append "F: ") fg "Series Description")
              else
                assign_if_present 2 "8-Bg-SeriesDescription"
                  (field (fun x => x) bg "Series Description")))
    | None =>
        let uid := bgUid in
        dicomDic <- extractDICOMValues h uid ;;
        topLeft <- gets topLeft ;;
        when (truthy topLeft && (viewHeight >? 150))
          (assign 2 "1-PatientName"
             (field caret_to_comma dicomDic "Patient Name") ;;
           assign 2 "2-PatientID" (field (append "ID: ") dicomDic "Patient ID") ;;
           (birth <- dic_get dicomDic "Patient Birth Date" ;;
            dic_set dicomDic "Patient Birth Date" (formatDICOMDate birth)) ;;
           assign 2 "3-PatientInfo" (makePatientInfo dicomDic) ;;
           assign 2 "4-Bg-SeriesDate"
             (field formatDICOMDate dicomDic "Series Date") ;;
           assign 2 "6-Bg-SeriesTime"
             (time_field EmptyString dicomDic "Series Time") ;;
           assign 2 "8-Bg-SeriesDescription"
             (field (fun x => x) dicomDic "Series Description")) ;;
        topRight <- gets topRight ;;
        when (truthy topRight)
          (assign 3 "1-Institution-Name"
             (field (fun x => x) dicomDic "Institution Name") ;;
           assign 3 "2-Referring-Phisycian"
             (field caret_to_comma dicomDic "Referring Physician Name") ;;
           assign 3 "3-Manufacturer" (field (fun x => x) dicomDic "Manufacturer") ;;
           assign 3 "4-Model" (field (fun x => x) dicomDic "Model") ;;
           assign 3 "5-Patient-Position"
             (field (fun x => x) dicomDic "Patient Position") ;;
           modality <- dic_get dicomDic "Modality" ;;
           when (String.eqb modality "MR")
             (assign 3 "6-TR" (field (append "TR ") dicomDic "Repetition Time") ;;
              assign 3 "7-TE" (field (append "TE ") dicomDic "Echo Time")))
    end.

(** **** Annotation text *)

(** [uids.partition(" ")[0]]. *)
Definition first_uid (uids : option string) : string :=
  match uids with
  | Some u => partition_head " "%char u
  | None => EmptyString
  end.

Definition makeAnnotationText (h : Host) (sliceLogic : SliceLogic) : M unit :=
  resetTexts ;;
  match GetSliceCompositeNode sliceLogic with
  | None => ret tt
  | Some sliceCompositeNode =>
      let backgroundVolume := backgroundVolume sliceLogic in
      let foregroundVolume := foregroundVolume sliceLogic in
      let labelVolume := labelVolume sliceLogic in
      match GetSliceNode sliceLogic with
      | None => ret tt
      | Some sliceNode =>
          let sliceViewName := GetLayoutName sliceNode in
          (* [if self.sliceViews[sliceViewName]:] a view is never false *)
          sliceView_of sliceViewName ;;
          bottomLeft <- gets bottomLeft ;;
          match backgroundVolume, foregroundVolume with
          | Some backgroundVolume, Some foregroundVolume =>
              (* Case I: both background and foreground *)
              when (truthy bottomLeft)
                (assign 0 "3-Background"
                   (ret ("B: " ++ GetName backgroundVolume)) ;;
                 assign 0 "2-Foreground"
                   (ret ("F: " ++ GetName foregroundVolume ++ " ("
                         ++ ForegroundOpacity_percent sliceCompositeNode
                         ++ "%)"))) ;;
              let bgUids := DICOM_instanceUIDs backgroundVolume in
              let fgUids := DICOM_instanceUIDs foregroundVolume in
              persistence <- gets backgroundDICOMAnnotationsPersistence ;;
              if nonempty bgUids && nonempty fgUids then
                modify (with_dicomVolumeNode 1) ;;
                makeDicomAnnotation h (first_uid bgUids)
                  (Some (first_uid fgUids)) sliceViewName
              else if nonempty bgUids && truthy persistence then
                modify (with_dicomVolumeNode 1) ;;
                makeDicomAnnotation h (first_uid bgUids) None sliceViewName
              else
                clear_cornerText 2 ;;
                modify (with_dicomVolumeNode 0)
          | Some backgroundVolume, None =>
              (* Case II: only background *)
              when (truthy bottomLeft)
                (assign 0 "3-Background"
                   (ret ("B: " ++ GetName backgroundVolume))) ;;
              let uids := DICOM_instanceUIDs backgroundVolume in
              if nonempty uids then
                makeDicomAnnotation h (first_uid uids) None sliceViewName ;;
                modify (with_dicomVolumeNode 1)
              else modify (with_dicomVolumeNode 0)
          | None, Some foregroundVolume =>
              (* Case III: only foreground *)
              when (truthy bottomLeft)
                (assign 0 "2-Foreground"
                   (ret ("F: " ++ GetName foregroundVolume))) ;;
              let uids := DICOM_instanceUIDs foregroundVolume in
              if nonempty uids then
                makeDicomAnnotation h (first_uid uids) None sliceViewName ;;
                modify (with_dicomVolumeNode 1)
              else modify (with_dicomVolumeNode 0)
          | None, None => ret tt
          end ;;
          (* top right is forced once when slab reconstruction is enabled *)
          allow <- gets allowForcingTopRightVisibility ;;
          when (GetSlabReconstructionEnabled sliceNode && allow)
            (modify (with_topRight 1) ;;
             modify (with_topRightCheckBox_checked true) ;;
             modify (with_allowForcingTopRightVisibility false)) ;;
          topRight <- gets topRight ;;
          (if truthy topRight && GetSlabReconstructionEnabled sliceNode then
             assign 3 "8-SlabReconstructionThickness"
               (ret ("Thickness: " ++ SlabReconstructionThickness_str sliceNode
                     ++ " " ++ lengthUnitSuffix h)) ;;
             assign 3 "9-SlabReconstructionType"
               (ret ("Type: " ++ SlabReconstructionType_str sliceNode))
           else
             assign 3 "8-SlabReconstructionThickness" (ret EmptyString) ;;
             assign 3 "9-SlabReconstructionType" (ret EmptyString)) ;;
          match labelVolume with
          | Some labelVolume =>
              when (truthy bottomLeft)
                (assign 0 "1-Label"
                   (ret ("L: " ++ GetName labelVolume ++ " ("
                         ++ LabelOpacity_percent sliceCompositeNode ++ "%)")))
          | None => ret tt
          end ;;
          drawCornerAnnotations sliceViewName
      end
  end.

(** **** Slice views and observers *)

(** [addObserver]: the pair is recorded once. *)
Definition subject_eqb (a b : Subject) : bool :=
  match a, b with
  | ParameterNode, ParameterNode => true
  | LogicOf x, LogicOf y => String.eqb x y
  | _, _ => false
  end.

Definition method_eqb (a b : Method) : bool :=
  match a, b with
  | UpdateViewAnnotations, UpdateViewAnnotations => true
  | UpdateGUIFromMRML, UpdateGUIFromMRML => true
  | _, _ => false
  end.

Definition addObserver (o : Subject) (m : Method) : M unit :=
  modify (fun s =>
    if existsb (fun p => subject_eqb (fst p) o && method_eqb (snd p) m)
         (observers s)
    then s
    else with_observers (observers s ++ [(o, m)])%list s).

(** [removeObservers(method=m)]. *)
Definition removeObservers (m : Method) : M unit :=
  modify (fun s =>
    with_observers (filter (fun p => negb (method_eqb (snd p) m)) (observers s))
      s).

Definition updateEnabledButtons : M unit :=
  enabled <- gets sliceViewAnnotationsEnabled ;;
  modify (with_parameterWidgets_enabled enabled).

Definition createGlobalVariables : M unit :=
  modify (with_sliceViewNames []) ;;
  modify (with_sliceViews []).

(** [layoutManager.sliceWidget(name)] is [None] for a name without a view. *)
Definition addSliceViewObserver (sliceViewName : string) : M unit :=
  vs <- gets views ;;
  if mem sliceViewName vs then
    modify (fun s =>
      with_sliceViews (set sliceViewName sliceViewName (sliceViews s)) s) ;;
    addObserver (LogicOf sliceViewName) UpdateViewAnnotations
  else raise AttributeError.

Definition createActors (sliceViewName : string) : M unit := ret tt.

Definition createCornerAnnotations (h : Host) : M unit :=
  createGlobalVariables ;;
  modify (with_sliceViewNames (layout_sliceViewNames h)) ;;
  names <- gets sliceViewNames ;;
  for_ names (fun sliceViewName =>
    addSliceViewObserver sliceViewName ;;
    createActors sliceViewName).

Definition updateCornerAnnotation (h : Host) (sliceLogic : SliceLogic)
  : M unit :=
  match GetSliceNode sliceLogic with
  | None => raise AttributeError
  | Some sliceNode =>
      let sliceViewName := GetLayoutName sliceNode in
      enabled <- gets sliceViewAnnotationsEnabled ;;
      sliceView_of sliceViewName ;;
      (if truthy enabled then
         (* Font *)
         fontSize <- gets fontSize ;;
         fontFamily <- gets fontFamily ;;
         on_sliceView sliceViewName
           (with_font fontSize
              (if String.eqb fontFamily "Times" then "Times" else "Arial")) ;;
         (* Text *)
         makeAnnotationText h sliceLogic
       else
         (* Clear Annotations *)
         for_ [0; 1; 2; 3]%nat (fun position =>
           on_sliceView sliceViewName (SetText position EmptyString))) ;;
      on_sliceView sliceViewName with_scheduledRender
  end.

Definition updateSliceViewFromGUI (h : Host) : M unit :=
  enabled <- gets sliceViewAnnotationsEnabled ;;
  if negb (truthy enabled) then
    removeObservers UpdateViewAnnotations ;;
    removeObservers UpdateGUIFromMRML
  else
    (* Create corner annotations if have not created already *)
    names <- gets sliceViewNames ;;
    when (Nat.eqb (List.length names) 0) (createCornerAnnotations h) ;;
    names <- gets sliceViewNames ;;
    for_ names (fun sliceViewName =>
      vs <- gets views ;;
      when (mem sliceViewName vs)
        (let sl := sliceLogic h sliceViewName in
         updateCornerAnnotation h sl)).

Definition int_of_bool (b : bool) : Z := if b then 1 else 0.

Definition onSliceViewAnnotationsCheckBox (h : Host) : M unit :=
  checked <- gets sliceViewAnnotationsCheckBox_checked ;;
  modify (with_sliceViewAnnotationsEnabled (int_of_bool checked)) ;;
  enabled <- gets sliceViewAnnotationsEnabled ;;
  modify (fun s =>
    with_settings
      (set "DataProbe/sliceViewAnnotations.enabled" enabled (settings s)) s) ;;
  updateEnabledButtons ;;
  updateSliceViewFromGUI h.

(** The observer of the slice logics; [caller] is the logic that changed. *)
Definition updateViewAnnotations (h : Host) (caller : SliceLogic) : M unit :=
  enabled <- gets sliceViewAnnotationsEnabled ;;
  if negb (truthy enabled) then ret tt
  else
    for_ (layout_sliceViewNames h) (fun sliceViewName =>
      names <- gets sliceViewNames ;;
      when (negb (existsb (String.eqb sliceViewName) names))
        (modify (fun s =>
           with_sliceViewNames (sliceViewNames s ++ [sliceViewName])%list s) ;;
         addSliceViewObserver sliceViewName ;;
         createActors sliceViewName ;;
         updateSliceViewFromGUI h)) ;;
    makeAnnotationText h caller.

End SliceAnnotations.

(** ** Sample hosts and states

    Concrete inputs on which the statements below are exercised. *)

Module Sample.

Import SliceAnnotations.

Definition installer (installed succeeds : bool) : DMRIInstall.Host :=
  {| DMRIInstall.applicationVersion := "5.6.2";
     DMRIInstall.repositoryRevision := "32448";
     DMRIInstall.platform := "linux-amd64";
     DMRIInstall.tr := fun msg => msg;
     DMRIInstall.isExtensionInstalled := fun _ => installed;
     DMRIInstall.installSucceeds := fun _ => succeeds |}.

Definition widget : DMRIInstall.Widget :=
  {| DMRIInstall.textBox := "The SlicerDMRI extension provides";
     DMRIInstall.applyButton_enabled := true;
     DMRIInstall.calls := [] |}.

Definition volume : VolumeNode :=
  {| GetName := "MRHead"; DICOM_instanceUIDs := Some "1.2.3 1.2.4" |}.

Definition redNode : SliceNode :=
  {| GetLayoutName := "Red";
     GetSlabReconstructionEnabled := false;
     SlabReconstructionThickness_str := "1.0";
     SlabReconstructionType_str := "Max" |}.

Definition redLogic : SliceLogic :=
  {| GetSliceCompositeNode :=
       Some {| ForegroundOpacity_percent := "50";
               LabelOpacity_percent := "100" |};
     backgroundVolume := Some volume;
     foregroundVolume := None;
     labelVolume := None;
     GetSliceNode := Some redNode |}.

(** A database that knows one series, acquired at 13:45:01. *)
Definition database (uid tag : string) : string :=
  if String.eqb tag "0008,0031" then "134501"
  else if String.eqb tag "0008,0021" then "20240229"
  else if String.eqb tag "0010,0030" then "19700131"
  else if String.eqb tag "0010,0010" then "Doe^Jane"
  else EmptyString.

Definition slicer (dbOpen : bool) : Host :=
  {| layout_sliceViewNames := ["Red"];
     sliceLogic := fun _ => redLogic;
     dicomDatabase_isOpen := dbOpen;
     instanceValue := database;
     lengthUnitSuffix := "mm" |}.

Definition redView (w : Z) : SliceView :=
  {| width := w; height := 300;
     cornerAnnotation := [EmptyString; EmptyString; EmptyString; EmptyString];
     maximumFontSize := 0; minimumFontSize := 0;
     nonlinearFontScaleFactor := 0;
     textFontFamily := "Arial"; customFontFile := false;
     shadow := 0; scheduledRenders := 0 |}.

(** The object as [__init__] leaves it with the default settings, before any
    view is known to it, over a layout with one view of width [w]. *)
Definition fresh (w : Z) : State :=
  {| sliceViewAnnotationsEnabled := 1;
     annotationsDisplayAmount := 0;
     topLeft := 0; topRight := 0; bottomLeft := 1;
     fontFamily := "Times"; fontSize := 14;
     backgroundDICOMAnnotationsPersistence := 0;
     maximumTextLength := 35;
     allowForcingTopRightVisibility := true;
     dicomVolumeNode := 0;
     cornerTexts := initial_cornerTexts;
     extractedDICOMValuesCacheSize := 12;
     extractedDICOMValuesCache := [];
     sliceViewNames := []; sliceViews := [];
     sliceViewAnnotationsCheckBox_checked := true;
     topRightCheckBox_checked := false;
     parameterWidgets_enabled := 1;
     observers := [(ParameterNode, UpdateGUIFromMRML)];
     settings := [];
     heap := [];
     views := [("Red", redView w)];
     dbLookups := [] |}.

(** The state that results when the annotations are drawn: the handler of the
    check box is run with the box checked. *)
Definition drawn (w : Z) : State :=
  match onSliceViewAnnotationsCheckBox (slicer true) (fresh w) with
  | Ok (_, s) => s
  | Raise _ => fresh w
  end.

(** The user then unchecks the box. *)
Definition unchecked (w : Z) : State :=
  with_sliceViewAnnotationsCheckBox_checked false (drawn w).

(** A top left corner with some of its texts filled in. *)
Definition corner : dict Entry :=
  [ ("6-Bg-SeriesTime", {| text := "1:45:01 PM"; category := "C" |});
    ("1-PatientName", {| text := "Doe, Jane"; category := "B" |});
    ("3-PatientInfo", {| text := EmptyString; category := "B" |});
    ("2-PatientID", {| text := "ID: 42"; category := "A" |}) ].

(** Thirteen instance UIDs. *)
Definition uids12 : list string :=
  ["1"; "2"; "3"; "4"; "5"; "6"; "7"; "8"; "9"; "10"; "11"; "12"].

End Sample.

(** ** Notions used in the statements *)

Module Spec.

Import SliceAnnotations.

(** The install calls among the calls made. *)
Definition installs (cs : list DMRIInstall.HostCall)
  : list DMRIInstall.HostCall :=
  filter (fun c => match c with
                   | DMRIInstall.DownloadAndInstallExtensionByName _ _ _ => true
                   | _ => false
                   end) cs.

(** The text of the error panel, with the three diagnostics in place. *)
Definition errorPanel (h : DMRIInstall.Host) : string :=
  nl ++ "<h5 style=" ++ dquote ++ "color:red" ++ dquote
  ++ ">The SlicerDMRI extension is currently unavailable.</h5><br>" ++ nl
  ++ "Please try a manual installation via the Extensions Manager," ++ nl
  ++ "and contact the Slicer forum at:<br><br>" ++ nl ++ nl
  ++ "&nbsp;&nbsp;<a href=" ++ dquote ++ "https://discourse.slicer.org"
  ++ dquote ++ ">https://discourse.slicer.org</a><br><br>" ++ nl ++ nl
  ++ "With the following information:<br>" ++ nl
  ++ "Slicer version: " ++ DMRIInstall.applicationVersion h ++ "<br>" ++ nl
  ++ "Slicer revision: " ++ DMRIInstall.repositoryRevision h ++ "<br>" ++ nl
  ++ "Platform: " ++ DMRIInstall.platform h ++ nl.

(** The corner annotation of a view, by the name of the view. *)
Definition cornerAnnotation_in (s : State) (view : string)
  : option (list string) :=
  option_map cornerAnnotation (get view (views s)).

(** The categories that each display level shows. *)
Definition permits (level : Z) (c : string) : bool :=
  if level =? 0 then existsb (String.eqb c) ["A"; "B"; "C"]
  else if level =? 1 then existsb (String.eqb c) ["A"; "B"]
  else if level =? 2 then String.eqb c "A"
  else false.

(** An entry is shown when its text is not empty and the level permits its
    category. *)
Definition shown (level : Z) (d : dict Entry) (key : string) : bool :=
  match get key d with
  | Some e => negb (String.eqb (text e) EmptyString)
              && permits level (category e)
  | None => false
  end.

(** What a shown entry contributes: its text, fitted, and a newline. *)
Definition line (maxLen : Z) (d : dict Entry) (key : string) : string :=
  match get key d with
  | Some e => fitText (text e) maxLen ++ nl
  | None => EmptyString
  end.

Definition join_all (l : list string) : string :=
  fold_right append EmptyString l.

(** The annotation of a corner as the claim describes it: the lines of the
    shown entries, in the sorted order of their keys. *)
Definition assembled (level maxLen : Z) (d : dict Entry) : string :=
  join_all (map (line maxLen d) (filter (shown level d) (sorted (keys d)))).

(** Every category is one of A, B and C. *)
Definition known_categories (d : dict Entry) : Prop :=
  Forall (fun kv => In (category (snd kv)) ["A"; "B"; "C"]) d.

(** The instance UIDs that the cache holds, oldest insertion first. *)
Definition cache_keys (s : State) : list string :=
  keys (extractedDICOMValuesCache s).

(** A run of calls of [extractDICOMValues], one for each UID asked for. *)
Definition extract_all (h : Host) (uids : list string) : M unit :=
  for_ uids (fun uid => extractDICOMValues h uid ;; ret tt).

(** The number of calls made since [k] was last asked for, in a history
    given most recent call first. *)
Fixpoint age (recent_first : list string) (k : string) : nat :=
  match recent_first with
  | [] => O
  | u :: r => if String.eqb u k then O else S (age r k)
  end.

(** [k] is a least recently used key among [ks], after the calls [hist]. *)
Definition least_recently_used (hist ks : list string) (k : string) : Prop :=
  In k ks /\ forall k', In k' ks -> (age (rev hist) k' <= age (rev hist) k)%nat.

(** The second half of claim C4: whenever a call inserts into a full cache,
    the entry that leaves the cache is a least recently used one. *)
Definition evicts_least_recently_used (h : Host) (s0 : State) : Prop :=
  forall (hist : list string) (uid : string) (s s' : State) (l : loc)
         (k : string),
    extract_all h hist s0 = Ok (tt, s) ->
    mem uid (extractedDICOMValuesCache s) = false ->
    Z.of_nat (List.length (extractedDICOMValuesCache s)) =
      extractedDICOMValuesCacheSize s ->
    extractDICOMValues h uid s = Ok (l, s') ->
    In k (cache_keys s) -> ~ In k (cache_keys s') ->
    least_recently_used hist (cache_keys s) k.

(** An entry with its text emptied, and a corner with every text emptied. *)
Definition reset_entry (kv : string * Entry) : string * Entry :=
  (fst kv, with_text EmptyString (snd kv)).

Definition reset_dict (d : dict Entry) : dict Entry := map reset_entry d.

(** The dictionary after the texts of the keys [ks] have been emptied, one
    assignment after the other. *)
Definition reset_keys (ks : list string) (d : dict Entry) : dict Entry :=
  fold_left (fun d k => match get k d with
                        | Some e => set k (with_text EmptyString e) d
                        | None => d
                        end) ks d.

(** What the corner texts keep from one event to the next: their keys, in
    order, and the category of each. *)
Definition shape (cts : list (dict Entry)) : list (list (string * string)) :=
  map (map (fun kv => (fst kv, category (snd kv)))) cts.

End Spec.

Import SliceAnnotations Spec.

(** ** DMRIInstall: the Apply button *)

Lemma errorText_value (h : DMRIInstall.Host) :
  DMRIInstall.errorText h = Ok (errorPanel h).
Proof.
  destruct h as [v r p t i d].
  unfold DMRIInstall.errorText, errorPanel; simpl.
  vm_compute; reflexivity.
Qed.

(** C5.  When SlicerDMRI is already installed, [onApply] shows the message
    that says so, disables the button and returns: the only call it has made
    into the host is the query whether the extension is installed, so the
    metadata is not refreshed, nothing is installed and no restart is
    proposed. *)
Theorem onApply_already_installed (h : DMRIInstall.Host)
  (w : DMRIInstall.Widget) :
  DMRIInstall.isExtensionInstalled h "SlicerDMRI" = true ->
  DMRIInstall.onApply h w =
    Ok {| DMRIInstall.textBox :=
            "<h4>" ++ DMRIInstall.tr h "SlicerDMRI is already installed."
            ++ "<h4>";
          DMRIInstall.applyButton_enabled := false;
          DMRIInstall.calls :=
            (DMRIInstall.calls w
             ++ [DMRIInstall.IsExtensionInstalled "SlicerDMRI"])%list |}.
Proof.
  intros Hinst. unfold DMRIInstall.onApply. rewrite Hinst. reflexivity.
Qed.

Lemma onApply_already_installed_witness :
  DMRIInstall.onApply (Sample.installer true true) Sample.widget =
    Ok {| DMRIInstall.textBox := "<h4>SlicerDMRI is already installed.<h4>";
          DMRIInstall.applyButton_enabled := false;
          DMRIInstall.calls :=
            [DMRIInstall.IsExtensionInstalled "SlicerDMRI"] |}.
Proof.
  apply (onApply_already_installed (Sample.installer true true) Sample.widget).
  reflexivity.
Defined.

(** C6.  When SlicerDMRI is not installed and the install call answers
    failure, [onApply] ends in [onError]: the text box shows the error panel,
    which carries the application version, the repository revision and the
    platform, the button is disabled, the install call has been made once and
    not again, and no restart is proposed. *)
Theorem onApply_install_failure (h : DMRIInstall.Host)
  (w : DMRIInstall.Widget) :
  DMRIInstall.isExtensionInstalled h "SlicerDMRI" = false ->
  DMRIInstall.installSucceeds h "SlicerDMRI" = false ->
  DMRIInstall.onApply h w =
    Ok {| DMRIInstall.textBox := errorPanel h;
          DMRIInstall.applyButton_enabled := false;
          DMRIInstall.calls :=
            (DMRIInstall.calls w
             ++ [DMRIInstall.IsExtensionInstalled "SlicerDMRI";
                 DMRIInstall.SetInteractive false;
                 DMRIInstall.UpdateExtensionsMetadataFromServer true true;
                 DMRIInstall.DownloadAndInstallExtensionByName "SlicerDMRI"
                   true true])%list |}
  /\ (forall w', DMRIInstall.onApply h w = Ok w' ->
        installs (DMRIInstall.calls w') =
          (installs (DMRIInstall.calls w)
           ++ [DMRIInstall.DownloadAndInstallExtensionByName "SlicerDMRI"
                 true true])%list).
Proof.
  intros Hinst Hfail.
  assert (E : DMRIInstall.onApply h w =
    Ok {| DMRIInstall.textBox := errorPanel h;
          DMRIInstall.applyButton_enabled := false;
          DMRIInstall.calls :=
            (DMRIInstall.calls w
             ++ [DMRIInstall.IsExtensionInstalled "SlicerDMRI";
                 DMRIInstall.SetInteractive false;
                 DMRIInstall.UpdateExtensionsMetadataFromServer true true;
                 DMRIInstall.DownloadAndInstallExtensionByName "SlicerDMRI"
                   true true])%list |}).
  { unfold DMRIInstall.onApply. rewrite Hinst, Hfail. simpl negb. cbv iota.
    unfold DMRIInstall.onError. rewrite errorText_value.
    unfold DMRIInstall.call, DMRIInstall.setHtml,
      DMRIInstall.set_applyButton_enabled; simpl.
    repeat rewrite <- app_assoc. reflexivity. }
  split; [exact E|].
  intros w' Hw'. rewrite E in Hw'. injection Hw' as <-. simpl.
  unfold installs. rewrite filter_app. reflexivity.
Qed.

Lemma onApply_install_failure_witness :
  DMRIInstall.onApply (Sample.installer false false) Sample.widget =
    Ok {| DMRIInstall.textBox := errorPanel (Sample.installer false false);
          DMRIInstall.applyButton_enabled := false;
          DMRIInstall.calls :=
            [DMRIInstall.IsExtensionInstalled "SlicerDMRI";
             DMRIInstall.SetInteractive false;
             DMRIInstall.UpdateExtensionsMetadataFromServer true true;
             DMRIInstall.DownloadAndInstallExtensionByName "SlicerDMRI"
               true true] |}.
Proof.
  exact (proj1 (onApply_install_failure (Sample.installer false false)
                  Sample.widget eq_refl eq_refl)).
Defined.

(** ** SliceViewAnnotations: the database and the cache *)

(** C7.  With the DICOM database closed, [makeDicomAnnotation] returns at
    once and normally: the state it is given comes back as it was, so no
    value has been looked up and no corner text has changed. *)
Theorem makeDicomAnnotation_database_closed (h : Host) (bgUid : string)
  (fgUid : option string) (sliceViewName : string) (s : State) :
  dicomDatabase_isOpen h = false ->
  makeDicomAnnotation h bgUid fgUid sliceViewName s = Ok (tt, s).
Proof.
  intros Hclosed. unfold makeDicomAnnotation. rewrite Hclosed. reflexivity.
Qed.

Lemma makeDicomAnnotation_database_closed_witness :
  makeDicomAnnotation (Sample.slicer false) "1.2.3" None "Red"
    (Sample.drawn 600) = Ok (tt, Sample.drawn 600)
  /\ dbLookups (Sample.drawn 600) <> [].
Proof.
  split.
  - apply makeDicomAnnotation_database_closed. reflexivity.
  - vm_compute. discriminate.
Defined.

Lemma mem_get {V} (k : string) (d : dict V) (v : V) :
  get k d = Some v -> mem k d = true.
Proof. unfold mem. intros ->. reflexivity. Qed.

(** A call for a UID that the cache holds. *)
Lemma extractDICOMValues_hit (h : Host) (uid : string) (l : loc)
  (s : State) :
  get uid (extractedDICOMValuesCache s) = Some l ->
  extractDICOMValues h uid s = Ok (l, s).
Proof.
  intros Hget. unfold extractDICOMValues, bind, gets, lift, lookup.
  rewrite (mem_get _ _ _ Hget), Hget. reflexivity.
Qed.

(** C8.  For an instance UID that the cache holds, [extractDICOMValues]
    returns the dictionary the cache holds for it and leaves the state as it
    was: no query is made of the database and the cache is not changed.  Two
    calls in a row therefore return the same dictionary. *)
Theorem extractDICOMValues_cached (h : Host) (uid : string) (l : loc)
  (s : State) :
  get uid (extractedDICOMValuesCache s) = Some l ->
  extractDICOMValues h uid s = Ok (l, s)
  /\ (a <- extractDICOMValues h uid ;;
      b <- extractDICOMValues h uid ;;
      ret (a, b)) s = Ok ((l, l), s).
Proof.
  intros Hget.
  pose proof (extractDICOMValues_hit h uid l s Hget) as E.
  split; [exact E|].
  unfold bind at 1. rewrite E. unfold bind. rewrite E. reflexivity.
Qed.

Lemma extractDICOMValues_cached_witness :
  extractDICOMValues (Sample.slicer true) "1.2.3" (Sample.drawn 600)
    = Ok (0%nat, Sample.drawn 600)
  /\ (a <- extractDICOMValues (Sample.slicer true) "1.2.3" ;;
      b <- extractDICOMValues (Sample.slicer true) "1.2.3" ;;
      ret (a, b)) (Sample.drawn 600) = Ok ((0%nat, 0%nat), Sample.drawn 600).
Proof.
  apply extractDICOMValues_cached. vm_compute. reflexivity.
Defined.

(** ** SliceViewAnnotations: formatting *)

(** C9.  The empty time gives the empty text.  For a time whose first two
    characters read as the integer [hh], [formatDICOMTime] gives
    [hour:MM:SS PM] with [hh - 12] as the hour when [hh > 12], and
    [HH:MM:SS AM] with the two characters themselves as the hour otherwise;
    so noon and midnight both come out as AM. *)
Theorem formatDICOMTime_spec (time : string) (hh : Z) :
  int_of_str (slice time None (Some 2)) = Ok hh ->
  formatDICOMTime EmptyString = Ok EmptyString
  /\ formatDICOMTime time =
       Ok (if hh >? 12
           then str_of_int (hh - 12) ++ ":" ++ slice time (Some 2) (Some 4)
                ++ ":" ++ slice time (Some 4) (Some 6) ++ " PM"
           else slice time None (Some 2) ++ ":" ++ slice time (Some 2) (Some 4)
                ++ ":" ++ slice time (Some 4) (Some 6) ++ " AM").
Proof.
  intros Hint. split; [reflexivity|].
  unfold formatDICOMTime.
  destruct (String.eqb time EmptyString) eqn:Hempty.
  - apply String.eqb_eq in Hempty. subst time. discriminate Hint.
  - rewrite Hint. destruct (hh >? 12); reflexivity.
Qed.

Lemma formatDICOMTime_spec_witness :
  (formatDICOMTime EmptyString = Ok EmptyString
   /\ formatDICOMTime "134501" = Ok "1:45:01 PM")
  /\ (formatDICOMTime EmptyString = Ok EmptyString
      /\ formatDICOMTime "120000" = Ok "12:00:00 AM")
  /\ (formatDICOMTime EmptyString = Ok EmptyString
      /\ formatDICOMTime "000000" = Ok "00:00:00 AM").
Proof.
  split; [|split].
  - exact (formatDICOMTime_spec "134501" 13 eq_refl).
  - exact (formatDICOMTime_spec "120000" 12 eq_refl).
  - exact (formatDICOMTime_spec "000000" 0 eq_refl).
Defined.

Lemma length_append (a b : string) :
  String.length (a ++ b) = (String.length a + String.length b)%nat.
Proof. induction a as [|c a IH]; simpl; [reflexivity | now rewrite IH]. Qed.

Lemma length_substring (s : string) :
  forall n m : nat,
    String.length (substring n m s) = Nat.min m (String.length s - n).
Proof.
  induction s as [|c s IH]; intros n m.
  - destruct n, m; reflexivity.
  - destruct n as [|n]; destruct m as [|m]; simpl; try reflexivity.
    + rewrite IH. now rewrite Nat.sub_0_r.
    + apply IH.
    + apply IH.
Qed.

Lemma len_slice (s : string) (lo hi : option Z) :
  len (slice s lo hi) =
    let a := match lo with None => 0 | Some i => clamp_index (len s) i end in
    let b := match hi with None => len s | Some j => clamp_index (len s) j end in
    Z.max 0 (Z.min (b - a) (len s - a)).
Proof.
  unfold slice, len. rewrite length_substring. cbv zeta.
  set (n := Z.of_nat (String.length s)).
  assert (Hn : 0 <= n) by (unfold n; lia).
  assert (Hc : forall i, 0 <= clamp_index n i <= n).
  { intros i. unfold clamp_index. destruct (i <? 0) eqn:E; lia. }
  destruct lo as [i|]; destruct hi as [j|];
    try pose proof (Hc i); try pose proof (Hc j); unfold n in *; lia.
Qed.

(** A text that fits is returned as it is. *)
Lemma fitText_fits (text : string) (textSize : Z) :
  len text <= textSize -> fitText text textSize = text.
Proof.
  intros H. unfold fitText.
  destruct (len text >? textSize) eqn:E; [lia | reflexivity].
Qed.

(** From size eight on, a text that does not fit is cut down to the two
    halves of [textSize // 2] characters, the dots taking three of the
    second. *)
Lemma fitText_truncates (text : string) (textSize : Z) :
  8 <= textSize -> textSize < len text ->
  len (fitText text textSize) = 2 * (textSize / 2)
  /\ len (fitText text textSize) <= textSize.
Proof.
  intros H8 Hlong. unfold fitText, int_truediv.
  destruct (len text >? textSize) eqn:E; [|lia].
  rewrite Z.quot_div_nonneg by lia.
  assert (Hhalf : 4 <= textSize / 2) by (apply Z.div_le_lower_bound; lia).
  assert (Hdouble : 2 * (textSize / 2) <= textSize)
    by (apply Z.mul_div_le; lia).
  assert (Hlen : forall a b, len (a ++ b) = len a + len b).
  { intros a b. unfold len. rewrite length_append. lia. }
  rewrite !Hlen, !len_slice. cbv zeta. unfold clamp_index.
  destruct (textSize / 2 <? 0) eqn:E1; [lia|].
  destruct (- (textSize / 2 - 3) <? 0) eqn:E2; [|lia].
  change (len "...") with 3. lia.
Qed.

(** C2, where the code goes wrong.  A view 124 pixels wide with the default
    font size of 14 gives a maximum text length of 6.  The name of the
    background volume, nine characters long, is then "fitted" to a text of
    fifteen characters: with [preSize = 3] the suffix length [postSize] is 0,
    and [text[-0:]] is the whole text. *)
Theorem fitText_small_size_overflows :
  int_truediv (124 - 40) 14 = 6
  /\ fitText "B: MRHead" 6 = "B: ...B: MRHead"
  /\ len (fitText "B: MRHead" 6) = 15
  /\ ~ len (fitText "B: MRHead" 6) <= 6.
Proof.
  split; [reflexivity|]. split; [reflexivity|]. split; [reflexivity|].
  intros H. vm_compute in H. now apply H.
Qed.

(** ** SliceViewAnnotations: the check box *)

(** When the box is unchecked the handler stops at the guard of
    [updateSliceViewFromGUI]: it records the setting, disables the widgets
    and removes the observers, and never reaches [updateCornerAnnotation].
    The slice views are left as they were. *)
Lemma onSliceViewAnnotationsCheckBox_unchecked (h : Host) (s : State) :
  sliceViewAnnotationsCheckBox_checked s = false ->
  exists s',
    onSliceViewAnnotationsCheckBox h s = Ok (tt, s')
    /\ sliceViewAnnotationsEnabled s' = 0
    /\ views s' = views s
    /\ cornerTexts s' = cornerTexts s.
Proof.
  intros Hbox. eexists.
  unfold onSliceViewAnnotationsCheckBox, updateEnabledButtons,
    updateSliceViewFromGUI, removeObservers, bind, gets, modify.
  rewrite Hbox. simpl. repeat split.
Qed.

(** C1, where the code goes wrong.  The annotations of the red view are
    drawn, the user unchecks the box, and the handler runs: annotations are
    now disabled, yet the corner annotation of the view still shows the name
    of the background volume; that position was not set to the empty text. *)
Theorem unchecking_keeps_corner_texts :
  cornerAnnotation_in (Sample.drawn 600) "Red" =
    Some [ "B: MRHead" ++ nl; EmptyString; EmptyString; EmptyString ]
  /\ exists s',
       onSliceViewAnnotationsCheckBox (Sample.slicer true)
         (Sample.unchecked 600) = Ok (tt, s')
       /\ sliceViewAnnotationsEnabled s' = 0
       /\ cornerAnnotation_in s' "Red" =
            Some [ "B: MRHead" ++ nl; EmptyString; EmptyString; EmptyString ].
Proof.
  split; [vm_compute; reflexivity|].
  eexists. split; [vm_compute; reflexivity|].
  split; vm_compute; reflexivity.
Qed.

(** ** SliceViewAnnotations: the text of a corner *)

Lemma append_assoc (a b c : string) : (a ++ b) ++ c = a ++ (b ++ c).
Proof. induction a as [|x a IH]; simpl; [reflexivity | now rewrite IH]. Qed.

Lemma append_empty_r (a : string) : a ++ EmptyString = a.
Proof. induction a as [|x a IH]; simpl; [reflexivity | now rewrite IH]. Qed.

Lemma get_In {V} (k : string) (d : dict V) (v : V) :
  get k d = Some v -> In (k, v) d.
Proof.
  induction d as [|[k' v'] d IH]; simpl; [discriminate|].
  destruct (String.eqb k k') eqn:E.
  - intros [= ->]. apply String.eqb_eq in E. subst. now left.
  - intros H. right. now apply IH.
Qed.

Lemma In_keys_get {V} (k : string) (d : dict V) :
  In k (keys d) -> exists v, get k d = Some v.
Proof.
  induction d as [|[k' v'] d IH]; simpl; [contradiction|].
  intros H. destruct (String.eqb k k') eqn:E; [now eexists|].
  destruct H as [H|H]; [|now apply IH].
  subst k'. rewrite String.eqb_refl in E. discriminate.
Qed.

(** The loop over the keys, for any list of keys of the dictionary and any
    text assembled so far. *)
Lemma fold_add_line (level maxLen : Z) (d : dict Entry) :
  0 <= level <= 2 -> known_categories d ->
  forall (ks : list string) (acc : string),
    (forall k, In k ks -> In k (keys d)) ->
    fold_left (add_line level maxLen d) ks (Ok acc) =
      Ok (acc ++ join_all (map (line maxLen d) (filter (shown level d) ks))).
Proof.
  intros Hlevel Hcat ks.
  induction ks as [|k ks IH]; intros acc Hks.
  - simpl. now rewrite append_empty_r.
  - destruct (In_keys_get k d (Hks k (or_introl eq_refl))) as [e He].
    assert (Hc : In (category e) ["A"; "B"; "C"]).
    { apply get_In in He. unfold known_categories in Hcat.
      rewrite Forall_forall in Hcat. exact (Hcat _ He). }
    assert (Hstep : add_line level maxLen d (Ok acc) k =
              Ok (if shown level d k then acc ++ line maxLen d k else acc)).
    { unfold add_line, shown, line, permits. rewrite He.
      destruct (String.eqb (text e) EmptyString); simpl; [reflexivity|].
      assert (Hl : level = 0 \/ level = 1 \/ level = 2) by lia.
      simpl in Hc.
      destruct Hl as [->|[->| ->]];
        destruct Hc as [<-|[<-|[<-|[]]]]; reflexivity. }
    cbn [fold_left filter]. rewrite Hstep.
    destruct (shown level d k); cbn [map join_all fold_right];
      rewrite IH by (intros k' Hk'; apply Hks; now right);
      [now rewrite append_assoc | reflexivity].
Qed.

(** C3.  The keys of the corner are visited in sorted order, each once; the
    text assembled is the text, fitted and followed by a newline, of exactly
    the entries whose text is not empty and whose category the display level
    permits: all of A, B and C at level 0, A and B at level 1, A alone at
    level 2. *)
Theorem cornerAnnotation_of_spec (level maxLen : Z) (d : dict Entry) :
  0 <= level <= 2 -> known_categories d ->
  Sorted (fun a b => String.leb a b = true) (sorted (keys d))
  /\ Permutation (keys d) (sorted (keys d))
  /\ cornerAnnotation_of level maxLen d = Ok (assembled level maxLen d).
Proof.
  intros Hlevel Hcat. split; [|split].
  - apply StringSort.Sorted_sort.
  - apply StringSort.Permuted_sort.
  - unfold cornerAnnotation_of, assembled.
    rewrite (fold_add_line level maxLen d Hlevel Hcat); [reflexivity|].
    intros k Hk. eapply Permutation_in; [|exact Hk].
    apply Permutation_sym, StringSort.Permuted_sort.
Qed.

Lemma cornerAnnotation_of_spec_witness :
  cornerAnnotation_of 1 35 Sample.corner =
    Ok ("Doe, Jane" ++ nl ++ "ID: 42" ++ nl).
Proof.
  assert (Hlevel : 0 <= 1 <= 2) by lia.
  assert (Hcat : known_categories Sample.corner)
    by (repeat constructor; simpl; auto).
  exact (proj2 (proj2 (cornerAnnotation_of_spec 1 35 Sample.corner
                         Hlevel Hcat))).
Defined.

(** ** SliceViewAnnotations: the cache is bounded, first in first out *)

Lemma set_absent {V} (k : string) (v : V) (d : dict V) :
  mem k d = false -> set k v d = (d ++ [(k, v)])%list.
Proof.
  unfold mem. induction d as [|[k' v'] d IH]; simpl; [reflexivity|].
  destruct (String.eqb k k'); [discriminate|].
  intros H. now rewrite IH.
Qed.

(** The loop over the tags queries the database once for each tag and never
    raises. *)
Lemma fill_ok (h : Host) (uid : string) (ts : list string) :
  (forall t, In t ts -> mem t tags = true) ->
  forall (p : dict string) (s : State),
  exists p',
    fill h uid ts p s =
      Ok (p', with_dbLookups (dbLookups s ++ map (pair uid) ts)%list s).
Proof.
  induction ts as [|t ts IH]; intros Hts p s.
  - exists p. simpl. unfold ret. rewrite app_nil_r.
    destruct s; reflexivity.
  - assert (Ht : mem t tags = true) by (apply Hts; now left).
    unfold mem in Ht. destruct (get t tags) as [name|] eqn:Hname;
      [|discriminate].
    destruct (IH (fun t' Ht' => Hts t' (or_intror Ht')) (set name
                (instanceValue h uid t) p)
                (with_dbLookups (dbLookups s ++ [(uid, t)])%list s))
      as [p' Hp'].
    exists p'. cbn [fill]. unfold query, lookup. rewrite Hname.
    unfold bind, modify, ret, lift. rewrite Hp'.
    cbn [dbLookups with_dbLookups map]. rewrite <- app_assoc. reflexivity.
Qed.

(** A call for a UID that the cache does not hold: the values are read from
    the database into a new dictionary, which goes last in the cache; if the
    cache then exceeds its size, its first entry is dropped. *)
Lemma extractDICOMValues_miss (h : Host) (uid : string) (s : State) :
  mem uid (extractedDICOMValuesCache s) = false ->
  exists p : dict string,
    let l := List.length (heap s) in
    let c := (extractedDICOMValuesCache s ++ [(uid, l)])%list in
    extractDICOMValues h uid s =
      Ok (l,
          with_extractedDICOMValuesCache
            (if Z.of_nat (List.length c) >? extractedDICOMValuesCacheSize s
             then tl c else c)
            (with_heap (heap s ++ [p])%list
               (with_dbLookups
                  (dbLookups s ++ map (pair uid) (keys tags))%list s))).
Proof.
  intros Hmiss.
  destruct (fill_ok h uid (keys tags)
              (fun t Ht => match In_keys_get t tags Ht with
                           | ex_intro _ v Hv => mem_get t tags v Hv
                           end) [] s) as [p Hp].
  exists p. cbv zeta.
  unfold extractDICOMValues, bind, gets. rewrite Hmiss, Hp.
  unfold alloc, modify, when, ret, lift.
  cbn [heap with_dbLookups with_heap extractedDICOMValuesCache
       with_extractedDICOMValuesCache extractedDICOMValuesCacheSize].
  rewrite (set_absent _ _ _ Hmiss).
  destruct (Z.of_nat _ >? extractedDICOMValuesCacheSize s).
  - destruct (extractedDICOMValuesCache s); reflexivity.
  - reflexivity.
Qed.

(** One call keeps the bound of twelve entries.  A hit changes nothing; a
    miss appends the new entry, after dropping the first entry when twelve
    are already there. *)
Lemma extractDICOMValues_step (h : Host) (uid : string) (s : State) :
  extractedDICOMValuesCacheSize s = 12 ->
  (List.length (extractedDICOMValuesCache s) <= 12)%nat ->
  exists (l : loc) (s' : State),
    extractDICOMValues h uid s = Ok (l, s')
    /\ extractedDICOMValuesCacheSize s' = 12
    /\ (List.length (extractedDICOMValuesCache s') <= 12)%nat
    /\ (mem uid (extractedDICOMValuesCache s) = true -> s' = s)
    /\ (mem uid (extractedDICOMValuesCache s) = false ->
        extractedDICOMValuesCache s' =
          ((if (List.length (extractedDICOMValuesCache s) <? 12)%nat
            then extractedDICOMValuesCache s
            else tl (extractedDICOMValuesCache s)) ++ [(uid, l)])%list).
Proof.
  intros Hsize Hbound.
  destruct (mem uid (extractedDICOMValuesCache s)) eqn:Hmem.
  - unfold mem in Hmem.
    destruct (get uid (extractedDICOMValuesCache s)) as [l|] eqn:Hget;
      [|discriminate].
    exists l, s.
    rewrite (extractDICOMValues_hit h uid l s Hget).
    repeat split; auto. discriminate.
  - destruct (extractDICOMValues_miss h uid s Hmem) as [p Hp].
    cbv zeta in Hp. rewrite Hsize in Hp.
    eexists _, _. split; [exact Hp|].
    cbn [extractedDICOMValuesCacheSize extractedDICOMValuesCache
         with_extractedDICOMValuesCache with_heap with_dbLookups].
    rewrite length_app, Nat.add_1_r.
    split; [exact Hsize|].
    set (c := extractedDICOMValuesCache s) in *.
    destruct (Z.gtb_spec (Z.of_nat (S (List.length c))) 12) as [Hfull|Hroom];
      destruct (Nat.ltb_spec (List.length c) 12) as [Hlt|Hge]; try lia.
    + split; [|split; [discriminate|intros _]].
      * destruct c as [|c0 c']; simpl in *; [lia|].
        rewrite length_app. simpl. lia.
      * destruct c as [|c0 c']; simpl in *; [lia | reflexivity].
    + split; [|split; [discriminate|intros _; reflexivity]].
      rewrite length_app. simpl. lia.
Qed.

Lemma extract_all_bounded (h : Host) (hist : list string) :
  forall s : State,
    extractedDICOMValuesCacheSize s = 12 ->
    (List.length (extractedDICOMValuesCache s) <= 12)%nat ->
    exists s' : State,
      extract_all h hist s = Ok (tt, s')
      /\ extractedDICOMValuesCacheSize s' = 12
      /\ (List.length (extractedDICOMValuesCache s') <= 12)%nat.
Proof.
  induction hist as [|uid hist IH]; intros s Hsize Hbound.
  - exists s. repeat split; assumption.
  - destruct (extractDICOMValues_step h uid s Hsize Hbound)
      as (l & s1 & Hcall & Hsize1 & Hbound1 & _).
    destruct (IH s1 Hsize1 Hbound1) as (s' & Hrun & Hsize' & Hbound').
    exists s'. split; [|split; assumption].
    unfold extract_all in *. cbn [for_]. unfold bind at 1 2.
    rewrite Hcall. unfold ret at 1. exact Hrun.
Qed.

(** C4, as the code has it.  From the empty cache of [__init__], with its
    size of twelve, every call of [extractDICOMValues] succeeds and leaves at
    most twelve entries.  A call for a UID in the cache leaves the cache as
    it is: its order is not refreshed.  A call for a new UID puts that UID
    last, and when twelve entries are already there the one dropped is the
    first, the entry inserted longest ago. *)
Theorem cache_bounded_first_in_first_out (h : Host) (s0 : State)
  (hist : list string) (uid : string) :
  extractedDICOMValuesCache s0 = [] ->
  extractedDICOMValuesCacheSize s0 = 12 ->
  exists (s : State) (l : loc) (s' : State),
    extract_all h hist s0 = Ok (tt, s)
    /\ extractDICOMValues h uid s = Ok (l, s')
    /\ (List.length (extractedDICOMValuesCache s') <= 12)%nat
    /\ (mem uid (extractedDICOMValuesCache s) = true ->
        extractedDICOMValuesCache s' = extractedDICOMValuesCache s)
    /\ (mem uid (extractedDICOMValuesCache s) = false ->
        (List.length (extractedDICOMValuesCache s) < 12)%nat ->
        extractedDICOMValuesCache s' =
          (extractedDICOMValuesCache s ++ [(uid, l)])%list)
    /\ (mem uid (extractedDICOMValuesCache s) = false ->
        List.length (extractedDICOMValuesCache s) = 12%nat ->
        extractedDICOMValuesCache s' =
          (tl (extractedDICOMValuesCache s) ++ [(uid, l)])%list).
Proof.
  intros Hempty Hsize.
  assert (Hbound0 : (List.length (extractedDICOMValuesCache s0) <= 12)%nat)
    by (rewrite Hempty; simpl; lia).
  destruct (extract_all_bounded h hist s0 Hsize Hbound0)
    as (s & Hrun & Hsize1 & Hbound1).
  destruct (extractDICOMValues_step h uid s Hsize1 Hbound1)
    as (l & s' & Hcall & _ & Hbound' & Hhit & Hmiss).
  exists s, l, s'. repeat split; try assumption.
  - intros Hmem. now rewrite (Hhit Hmem).
  - intros Hmem Hlt. rewrite (Hmiss Hmem).
    apply Nat.ltb_lt in Hlt. now rewrite Hlt.
  - intros Hmem Hfull. rewrite (Hmiss Hmem).
    assert (Hge : (List.length (extractedDICOMValuesCache s) <? 12)%nat
                  = false) by (apply Nat.ltb_ge; lia).
    now rewrite Hge.
Qed.

Lemma cache_bounded_first_in_first_out_witness :
  exists (s : State) (l : loc) (s' : State),
    extract_all (Sample.slicer true) (Sample.uids12 ++ ["1"])%list
      (Sample.fresh 600) = Ok (tt, s)
    /\ extractDICOMValues (Sample.slicer true) "13" s = Ok (l, s')
    /\ (List.length (extractedDICOMValuesCache s') <= 12)%nat
    /\ (mem "13" (extractedDICOMValuesCache s) = true ->
        extractedDICOMValuesCache s' = extractedDICOMValuesCache s)
    /\ (mem "13" (extractedDICOMValuesCache s) = false ->
        (List.length (extractedDICOMValuesCache s) < 12)%nat ->
        extractedDICOMValuesCache s' =
          (extractedDICOMValuesCache s ++ [("13", l)])%list)
    /\ (mem "13" (extractedDICOMValuesCache s) = false ->
        List.length (extractedDICOMValuesCache s) = 12%nat ->
        extractedDICOMValuesCache s' =
          (tl (extractedDICOMValuesCache s) ++ [("13", l)])%list).
Proof.
  exact (cache_bounded_first_in_first_out (Sample.slicer true)
           (Sample.fresh 600) (Sample.uids12 ++ ["1"])%list "13"
           eq_refl eq_refl).
Defined.

(** C4, the counterexample.  Twelve UIDs fill the cache; the first of them
    is then asked for again, which makes it the most recently used; a
    thirteenth UID is asked for.  The entry dropped is the first UID, though
    the second has gone unused for longer. *)
Lemma eviction_is_not_least_recently_used :
  ~ evicts_least_recently_used (Sample.slicer true) (Sample.fresh 600).
Proof.
  intros Hlru.
  destruct (extract_all (Sample.slicer true) (Sample.uids12 ++ ["1"])%list
              (Sample.fresh 600)) as [[[] s]|e] eqn:Hrun;
    [|vm_compute in Hrun; discriminate].
  destruct (extractDICOMValues (Sample.slicer true) "13" s)
    as [[l s']|e] eqn:Hcall;
    [|vm_compute in Hrun; injection Hrun as <-;
      vm_compute in Hcall; discriminate].
  assert (Hkeys : cache_keys s = Sample.uids12).
  { vm_compute in Hrun. injection Hrun as <-. reflexivity. }
  assert (Hkeys' : cache_keys s' = (tl Sample.uids12 ++ ["13"])%list).
  { vm_compute in Hrun. injection Hrun as <-.
    vm_compute in Hcall. injection Hcall as _ <-. reflexivity. }
  assert (H : least_recently_used (Sample.uids12 ++ ["1"])%list
                (cache_keys s) "1").
  { apply (Hlru _ "13" s s' l "1" Hrun).
    - vm_compute in Hrun. injection Hrun as <-. reflexivity.
    - vm_compute in Hrun. injection Hrun as <-. reflexivity.
    - exact Hcall.
    - rewrite Hkeys. now left.
    - rewrite Hkeys'. simpl. intuition discriminate. }
  destruct H as [_ H]. specialize (H "2").
  rewrite Hkeys in H. vm_compute in H.
  assert (Hle : (11 <= 0)%nat) by (apply H; right; now left).
  lia.
Qed.

(** ** SliceViewAnnotations: resetting the texts *)

Lemma with_cornerTexts_same (s : State) :
  with_cornerTexts (cornerTexts s) s = s.
Proof. destruct s; reflexivity. Qed.

Lemma list_set_same {A} (l : list A) :
  forall (i : nat) (x : A), nth_error l i = Some x -> list_set i x l = l.
Proof.
  induction l as [|y l IH]; intros [|i] x H; simpl in *;
    try discriminate; [now injection H as -> | now rewrite IH].
Qed.

Lemma list_set_app {A} (done : list A) (x y : A) (rest : list A) :
  list_set (List.length done) x (done ++ y :: rest)%list
  = (done ++ x :: rest)%list.
Proof. induction done as [|z done IH]; simpl; [reflexivity | now rewrite IH]. Qed.

Lemma list_set_twice {A} (l : list A) :
  forall (i : nat) (x y : A), list_set i x (list_set i y l) = list_set i x l.
Proof.
  induction l as [|z l IH]; intros [|i] x y; simpl;
    try reflexivity. now rewrite IH.
Qed.

Lemma nth_error_list_set {A} (l : list A) :
  forall (i : nat) (x y : A),
    nth_error l i = Some y -> nth_error (list_set i x l) i = Some x.
Proof.
  induction l as [|z l IH]; intros [|i] x y H; simpl in *;
    try discriminate; [reflexivity | now apply (IH i x y)].
Qed.

Lemma keys_set {V} (k : string) (v v' : V) (d : dict V) :
  get k d = Some v' -> keys (set k v d) = keys d.
Proof.
  induction d as [|[k' w] d IH]; simpl; [discriminate|].
  destruct (String.eqb k k') eqn:E.
  - intros _. apply String.eqb_eq in E. now subst.
  - intros H. simpl. now rewrite IH.
Qed.

Lemma get_app_fresh {V} (k : string) (pre d : dict V) :
  ~ In k (keys pre) -> get k (pre ++ d)%list = get k d.
Proof.
  induction pre as [|[k' w] pre IH]; simpl; [reflexivity|].
  intros H. destruct (String.eqb k k') eqn:E.
  - apply String.eqb_eq in E. subst. exfalso. apply H. now left.
  - apply IH. intros Hin. apply H. now right.
Qed.

Lemma set_app_fresh {V} (k : string) (v w : V) (pre post : dict V) :
  ~ In k (keys pre) ->
  set k v (pre ++ (k, w) :: post)%list = (pre ++ (k, v) :: post)%list.
Proof.
  induction pre as [|[k' u] pre IH]; simpl.
  - now rewrite String.eqb_refl.
  - intros H. destruct (String.eqb k k') eqn:E.
    + apply String.eqb_eq in E. subst. exfalso. apply H. now left.
    + rewrite IH; [reflexivity|]. intros Hin. apply H. now right.
Qed.

(** One assignment [self.cornerTexts[i][key]["text"] = t]. *)
Lemma set_cornerText_ok (i : nat) (key t : string) (s : State)
  (d : dict Entry) (e : Entry) :
  nth_error (cornerTexts s) i = Some d ->
  get key d = Some e ->
  set_cornerText i key t s =
    Ok (tt, with_cornerTexts
              (list_set i (set key (with_text t e) d) (cornerTexts s)) s).
Proof.
  intros Hd He.
  unfold set_cornerText, cornerText_at, bind, lift, lookup, modify.
  now rewrite Hd, He.
Qed.

(** The inner loop of [resetTexts], over any keys of corner [i]. *)
Lemma reset_inner_loop (i : nat) (ks : list string) :
  forall (s : State) (d : dict Entry),
    nth_error (cornerTexts s) i = Some d ->
    (forall k, In k ks -> In k (keys d)) ->
    for_ ks (fun key => set_cornerText i key EmptyString) s =
      Ok (tt, with_cornerTexts
                (list_set i (reset_keys ks d) (cornerTexts s)) s).
Proof.
  induction ks as [|k ks IH]; intros s d Hd Hks.
  - simpl. unfold ret. rewrite (list_set_same _ _ _ Hd).
    now rewrite with_cornerTexts_same.
  - destruct (In_keys_get k d (Hks k (or_introl eq_refl))) as [e He].
    cbn [for_]. unfold bind.
    rewrite (set_cornerText_ok i k EmptyString s d e Hd He).
    set (d1 := set k (with_text EmptyString e) d).
    rewrite (IH _ d1).
    + cbn [cornerTexts with_cornerTexts]. rewrite list_set_twice.
      unfold reset_keys at 2. cbn [fold_left]. rewrite He.
      reflexivity.
    + cbn [cornerTexts with_cornerTexts].
      exact (nth_error_list_set _ i d1 d Hd).
    + intros k' Hk'. unfold d1. rewrite (keys_set _ _ _ _ He).
      apply Hks. now right.
Qed.

(** Emptying the text of every key of a dictionary, key by key, empties the
    text of every entry. *)
Lemma reset_keys_all (post : dict Entry) :
  forall pre : dict Entry,
    NoDup (keys post) ->
    (forall k, In k (keys pre) -> ~ In k (keys post)) ->
    reset_keys (keys post) (pre ++ post)%list
    = (pre ++ reset_dict post)%list.
Proof.
  induction post as [|[k e] post IH]; intros pre Hnodup Hfresh.
  - reflexivity.
  - assert (Hk : ~ In k (keys pre)).
    { intros Hin. apply (Hfresh k Hin). now left. }
    inversion Hnodup as [|? ? Hnotin Hnodup']; subst.
    unfold reset_keys. cbn [keys map fst fold_left].
    rewrite (get_app_fresh _ _ _ Hk). cbn [get]. rewrite String.eqb_refl.
    rewrite (set_app_fresh _ _ _ _ _ Hk).
    change (pre ++ (k, with_text EmptyString e) :: post)%list
      with (pre ++ [(k, with_text EmptyString e)] ++ post)%list.
    rewrite app_assoc.
    fold (reset_keys (keys post)
            ((pre ++ [(k, with_text EmptyString e)]) ++ post)%list).
    rewrite IH; [now rewrite <- app_assoc|assumption|].
    intros k' Hk'. unfold keys in Hk'. rewrite map_app, in_app_iff in Hk'.
    destruct Hk' as [Hk'|[<-|[]]].
    + intros Hin. apply (Hfresh k' Hk'). now right.
    + exact Hnotin.
Qed.

(** The outer loop of [resetTexts], from corner [length done] on. *)
Lemma reset_outer_loop (rest : list (dict Entry)) :
  forall (done : list (dict Entry)) (s : State),
    cornerTexts s = (done ++ rest)%list ->
    Forall wf_dict rest ->
    for_ (enumerate_from (List.length done) rest)
      (fun '(i, cornerText) =>
         for_ (keys cornerText)
           (fun key => set_cornerText i key EmptyString)) s =
      Ok (tt, with_cornerTexts (done ++ map reset_dict rest)%list s).
Proof.
  induction rest as [|d rest IH]; intros done s Hs Hwf.
  - simpl. unfold ret. rewrite <- Hs. now rewrite with_cornerTexts_same.
  - inversion Hwf as [|? ? Hd Hrest]; subst.
    cbn [enumerate_from for_]. unfold bind.
    rewrite (reset_inner_loop (List.length done) (keys d) s d).
    + rewrite Hs, list_set_app.
      pose proof (reset_keys_all d [] Hd
                    (fun k (H : In k []) => match H with end)) as Hr.
      cbn [app] in Hr. rewrite Hr.
      replace (S (List.length done))
        with (List.length (done ++ [reset_dict d])%list)
        by (rewrite length_app; simpl; lia).
      rewrite IH.
      * cbn [with_cornerTexts cornerTexts map].
        rewrite <- app_assoc. reflexivity.
      * cbn [with_cornerTexts cornerTexts].
        now rewrite <- app_assoc.
      * assumption.
    + rewrite Hs. rewrite nth_error_app2 by lia.
      now rewrite Nat.sub_diag.
    + auto.
Qed.

Lemma resetTexts_value (s : State) :
  Forall wf_dict (cornerTexts s) ->
  resetTexts s =
    Ok (tt, with_cornerTexts (map reset_dict (cornerTexts s)) s).
Proof.
  intros Hwf. unfold resetTexts, bind, gets, enumerate.
  exact (reset_outer_loop (cornerTexts s) [] s eq_refl Hwf).
Qed.

Lemma shape_reset (cts : list (dict Entry)) :
  shape (map reset_dict cts) = shape cts.
Proof.
  unfold shape, reset_dict. rewrite map_map. apply map_ext.
  intros d. rewrite map_map. apply map_ext. now intros [k e].
Qed.

Lemma texts_reset (cts : list (dict Entry)) :
  Forall (Forall (fun kv => text (snd kv) = EmptyString))
    (map reset_dict cts).
Proof.
  apply Forall_forall. intros d Hd. apply in_map_iff in Hd.
  destruct Hd as (d0 & <- & _). apply Forall_forall. intros kv Hkv.
  apply in_map_iff in Hkv. now destruct Hkv as (kv0 & <- & _).
Qed.

(** Corner texts of the same shape differ in their texts only: emptying the
    texts makes them equal. *)
Lemma reset_same_shape (a : list (dict Entry)) :
  forall b : list (dict Entry),
    shape a = shape b -> map reset_dict a = map reset_dict b.
Proof.
  induction a as [|d a IH]; intros [|d' b] H; simpl in H;
    try discriminate; [reflexivity|].
  injection H as Hd Hrest. simpl. f_equal; [|now apply IH].
  clear -Hd. revert d' Hd.
  induction d as [|[k e] d IHd]; intros [|[k' e'] d'] Hd; simpl in Hd;
    try discriminate; [reflexivity|].
  injection Hd as -> Hc Hd. simpl. f_equal; [|now apply IHd].
  unfold reset_entry, with_text. simpl. now rewrite Hc.
Qed.

Lemma wf_same_shape (a : list (dict Entry)) :
  forall b : list (dict Entry),
    shape a = shape b -> Forall wf_dict b -> Forall wf_dict a.
Proof.
  induction a as [|d a IH]; intros [|d' b] H Hwf; simpl in H;
    try discriminate; [constructor|].
  injection H as Hd Hrest. inversion Hwf as [|? ? Hd' Hb]; subst.
  constructor; [|now apply (IH b)].
  unfold wf_dict, keys in *.
  replace (map fst d) with (map fst d'); [assumption|].
  apply (f_equal (map fst)) in Hd. rewrite !map_map in Hd. simpl in Hd.
  now symmetry.
Qed.

(** C10.  [resetTexts] never raises; it empties the text of every entry of
    every corner and changes nothing else, so the keys and the categories
    stay as they are.  [makeAnnotationText] begins with it: started from
    corner texts that differ from those of [s] in their texts only, it ends
    as it does from [s], so nothing of the texts of a previous event is left
    in its outcome. *)
Theorem resetTexts_spec (h : Host) (sliceLogic : SliceLogic) (s : State)
  (previous : list (dict Entry)) :
  Forall wf_dict (cornerTexts s) ->
  shape previous = shape (cornerTexts s) ->
  resetTexts s = Ok (tt, with_cornerTexts (map reset_dict (cornerTexts s)) s)
  /\ shape (map reset_dict (cornerTexts s)) = shape (cornerTexts s)
  /\ Forall (Forall (fun kv => text (snd kv) = EmptyString))
       (map reset_dict (cornerTexts s))
  /\ makeAnnotationText h sliceLogic (with_cornerTexts previous s) =
       makeAnnotationText h sliceLogic s.
Proof.
  intros Hwf Hshape.
  split; [now apply resetTexts_value|].
  split; [apply shape_reset|].
  split; [apply texts_reset|].
  unfold makeAnnotationText, bind.
  rewrite (resetTexts_value s Hwf).
  rewrite (resetTexts_value (with_cornerTexts previous s))
    by (cbn [cornerTexts with_cornerTexts];
        exact (wf_same_shape _ _ Hshape Hwf)).
  cbn [cornerTexts with_cornerTexts].
  rewrite (reset_same_shape _ _ Hshape). reflexivity.
Qed.

Lemma initial_cornerTexts_wf : Forall wf_dict initial_cornerTexts.
Proof.
  unfold initial_cornerTexts, wf_dict, keys. simpl.
  repeat (constructor; [try (repeat constructor; simpl; intuition discriminate)|]).
  constructor.
Qed.

Lemma resetTexts_spec_witness :
  resetTexts (Sample.drawn 600) =
    Ok (tt, with_cornerTexts
              (map reset_dict (cornerTexts (Sample.drawn 600)))
              (Sample.drawn 600))
  /\ shape (map reset_dict (cornerTexts (Sample.drawn 600))) =
       shape (cornerTexts (Sample.drawn 600))
  /\ Forall (Forall (fun kv => text (snd kv) = EmptyString))
       (map reset_dict (cornerTexts (Sample.drawn 600)))
  /\ makeAnnotationText (Sample.slicer true) Sample.redLogic
       (with_cornerTexts initial_cornerTexts (Sample.drawn 600)) =
       makeAnnotationText (Sample.slicer true) Sample.redLogic
         (Sample.drawn 600).
Proof.
  apply (resetTexts_spec (Sample.slicer true) Sample.redLogic
           (Sample.drawn 600) initial_cornerTexts).
  - apply (wf_same_shape (cornerTexts (Sample.drawn 600)) initial_cornerTexts);
      [vm_compute; reflexivity | exact initial_cornerTexts_wf].
  - vm_compute. reflexivity.
Defined.
